(** * Calculation records: entity hierarchy and validation schema

    A shallow embedding of [app/models/calculation.py] (the polymorphic
    SQLAlchemy entity with its factory and [get_result]) and of
    [app/schema/calculation.py] (the pydantic shapes with their
    validators), together with the properties the specification states
    about them.

    Layout: module [Py] holds the host-language values the code computes
    with (str, int, float, exceptions, a state-and-exception monad),
    [Models] the entity hierarchy, [Schema] the validation shapes,
    [Transport] the calls that join the two, [Samples] concrete inputs;
    the theorems follow. *)

From Stdlib Require Import ZArith NArith List String Ascii Bool Floats Lia.
From stdpp Require Import gmap.

Set Warnings "-inexact-float".

(* ===================================================================== *)
(** ** Python values                                                      *)
(* ===================================================================== *)

Module Py.

(** A Python [str] is a sequence of Unicode code points. *)
Abbreviation str := (list N).

(** The code points of an ASCII literal of the source. *)
Definition lit (s : string) : str :=
  List.map N_of_ascii (list_ascii_of_string s).
Arguments lit : simpl never.

Definition is_ascii (s : str) : bool := forallb (fun c => (c <? 128)%N) s.

(** [Py_TOLOWER] on one ASCII code point: 'A'..'Z' move to 'a'..'z'. *)
Definition ascii_lower (c : N) : N :=
  if ((65 <=? c) && (c <=? 90))%N then (c + 32)%N else c.

(** 128-bit identifiers of [uuid.UUID]. *)
Definition uuid := N.

(** What the code takes from the interpreter and from pydantic-core and
    whose tables are not part of the repository:
    - [unicode_lower]: [str.lower()] on a string that holds a code point
      outside ASCII (CPython's [case_operation(self, do_lower)]);
    - [str_as_float]: pydantic's lax parsing of a numeric string into a
      float field;
    - [str_as_uuid]: pydantic's parsing of a string into a UUID field. *)
Class Host := {
  unicode_lower : str -> str;
  str_as_float : str -> option float;
  str_as_uuid : str -> option uuid
}.

(** [s.lower()]: CPython's [unicode_lower_impl] lowers a pure-ASCII string
    code point by code point and hands every other string to the Unicode
    case tables. *)
Definition lower `{Host} (s : str) : str :=
  if is_ascii s then List.map ascii_lower s else unicode_lower s.

(** Modelled from the spec: [Number] of [app.operations] is not under src;
    the spec has operands that are "numeric (integer or real)", which is a
    Python [int] (unbounded) or a [float] (IEEE 754 binary64). *)
Inductive Number :=
  | PyInt (z : Z)
  | PyFloat (f : float).

(** Exceptions the modelled code can raise. *)
Inductive Exc :=
  | ValueError (msg : str)
  | NotImplementedError
  | OverflowError
  | ZeroDivisionError.

Inductive Res (A : Type) :=
  | Ok (x : A)
  | Raise (e : Exc).
Arguments Ok {A} x.
Arguments Raise {A} e.

(** [float(z)] for an int, as [PyLong_AsDouble] does it: round to nearest,
    ties to even, [OverflowError] when the rounded value leaves binary64. *)
Definition int_to_float (z : Z) : Res float :=
  match binary_normalize prec emax z 0 false with
  | S754_infinity _ => Raise OverflowError
  | sf => Ok (SF2Prim sf)
  end.

(** An int as an unrounded binary float with exponent 0. *)
Definition int_to_sf (z : Z) : spec_float :=
  match z with
  | Z0 => S754_zero false
  | Zpos p => S754_finite false p 0
  | Zneg p => S754_finite true p 0
  end.

(** [CONVERT_TO_DOUBLE]: the operand of a float operation as a double. *)
Definition as_double (x : Number) : Res float :=
  match x with
  | PyFloat f => Ok f
  | PyInt i => int_to_float i
  end.

(** A binary float operation of CPython's [floatobject.c]: convert the left
    operand, then the right one, then compute. *)
Definition float_binop (op : float -> float -> Res Number) (x y : Number)
  : Res Number :=
  match as_double x with
  | Raise e => Raise e
  | Ok f =>
      match as_double y with
      | Raise e => Raise e
      | Ok g => op f g
      end
  end.

(** [x + y], [x - y], [x * y]: exact on two ints, binary64 as soon as one
    operand is a float. *)
Definition py_add (x y : Number) : Res Number :=
  match x, y with
  | PyInt i, PyInt j => Ok (PyInt (i + j))
  | _, _ => float_binop (fun f g => Ok (PyFloat (f + g))) x y
  end.

Definition py_sub (x y : Number) : Res Number :=
  match x, y with
  | PyInt i, PyInt j => Ok (PyInt (i - j))
  | _, _ => float_binop (fun f g => Ok (PyFloat (f - g))) x y
  end.

Definition py_mul (x y : Number) : Res Number :=
  match x, y with
  | PyInt i, PyInt j => Ok (PyInt (i * j))
  | _, _ => float_binop (fun f g => Ok (PyFloat (f * g))) x y
  end.

(** [x / y] (true division).  Two ints give the correctly rounded quotient
    ([long_true_divide]): [ZeroDivisionError] on a zero divisor,
    [OverflowError] when the quotient is too large for a float.  With a
    float operand both are converted and a zero divisor raises
    ([float_div]). *)
Definition py_truediv (x y : Number) : Res Number :=
  match x, y with
  | PyInt i, PyInt j =>
      if (j =? 0)%Z then Raise ZeroDivisionError
      else match SFdiv prec emax (int_to_sf i) (int_to_sf j) with
           | S754_infinity _ => Raise OverflowError
           | sf => Ok (PyFloat (SF2Prim sf))
           end
  | _, _ =>
      float_binop
        (fun f g =>
           if (g =? 0)%float then Raise ZeroDivisionError
           else Ok (PyFloat (f / g))) x y
  end.

(** [x == 0] against the int literal 0: exact on an int, IEEE equality on a
    float (so both zeros are equal to 0 and a NaN is not). *)
Definition py_eq_0 (x : Number) : bool :=
  match x with
  | PyInt i => (i =? 0)%Z
  | PyFloat f => (f =? 0)%float
  end.

(** *** State and exceptions

    A method body runs against a state [S] (the object it may mutate) and
    either returns a value or raises. *)
Definition M (S A : Type) : Type := S -> Res A * S.

Definition ret {S A : Type} (x : A) : M S A := fun s => (Ok x, s).

Definition raise {S A : Type} (e : Exc) : M S A := fun s => (Raise e, s).

Definition bind {S A B : Type} (c : M S A) (k : A -> M S B) : M S B :=
  fun s =>
    match c s with
    | (Ok x, s') => k x s'
    | (Raise e, s') => (Raise e, s')
    end.

(** Reading an attribute of the state. *)
Definition gets {S A : Type} (f : S -> A) : M S A := fun s => (Ok (f s), s).

(** Evaluating an expression that may raise. *)
Definition eval {S A : Type} (r : Res A) : M S A := fun s => (r, s).

End Py.

Import Py.

Notation "x <- c ;; k" := (bind c (fun x => k))
  (at level 100, c at next level, right associativity).

(* ===================================================================== *)
(** ** app/models/calculation.py                                          *)
(* ===================================================================== *)

Module Models.

(** The mapped classes: the base [Calculation] and its four subclasses. *)
Inductive Class :=
  | Calculation
  | Addition
  | Subtraction
  | Multiplication
  | Division.

(** [__mapper_args__["polymorphic_identity"]] of each class, as written in
    the source. *)
Definition polymorphic_identity (c : Class) : str :=
  match c with
  | Calculation => lit "calculation"
  | Addition => lit "addition"
  | Subtraction => lit "subtraction"
  | Multiplication => lit "subtraction"
  | Division => lit "division"
  end.

(** An instance: its class and the columns of [AbstractCalculation].  [id]
    has a column default, so it is unset until the row is flushed. *)
Record Entity := {
  cls : Class;
  id : option uuid;
  user_id : uuid;
  type : str;
  a : Number;
  b : Number
}.

(** The declarative constructor [cls(user_id=.., type=.., a=.., b=..)]: the
    mapper first stores the class's polymorphic identity in the
    discriminator column named by [polymorphic_on], then the keyword
    arguments are assigned, so a [type] keyword overrides the identity. *)
Definition new (c : Class) (user_id : uuid) (type_kw : option str)
    (a b : Number) : Entity :=
  {| cls := c;
     id := None;
     user_id := user_id;
     type := default (polymorphic_identity c) type_kw;
     a := a;
     b := b |}.

(** The dispatch table of the factory. *)
Definition calculation_classes : gmap str Class :=
  list_to_map
    [ (lit "addition", Addition);
      (lit "subtraction", Subtraction);
      (lit "multiplication", Multiplication);
      (lit "division", Division) ].

(** The closed set of operator kinds of the specification: the keys of the
    table. *)
Definition operator_kinds : list str :=
  [lit "addition"; lit "subtraction"; lit "multiplication"; lit "division"].

Definition unsupported (calculation_type : str) : Exc :=
  ValueError (lit "Unsupported calculation type: " ++ calculation_type).

(** [AbstractCalculation.create]: it reads and writes no state of its own,
    so it runs against any state [S]. *)
Definition create `{Host} {S : Type} (calculation_type : str)
    (user_id : uuid) (a b : Number) : M S Entity :=
  match calculation_classes !! lower calculation_type with
  | None => raise (unsupported calculation_type)
  | Some calc_class => ret (new calc_class user_id None a b)
  end.

Definition division_by_zero : Exc :=
  ValueError (lit "Division by zero not permitted.").

(** [get_result], dispatched on the class of [self]; the state is [self]. *)
Definition get_result : M Entity Number :=
  c <- gets cls ;;
  match c with
  | Calculation => raise NotImplementedError
  | Addition =>
      x <- gets a ;; y <- gets b ;; eval (py_add x y)
  | Subtraction =>
      x <- gets a ;; y <- gets b ;; eval (py_sub x y)
  | Multiplication =>
      x <- gets a ;; y <- gets b ;; eval (py_mul x y)
  | Division =>
      y <- gets b ;;
      if py_eq_0 y then raise division_by_zero
      else x <- gets a ;; y <- gets b ;; eval (py_truediv x y)
  end.

(** Attribute assignment [self.a = v], [self.b = v]. *)
Definition set_a (v : Number) (e : Entity) : Entity :=
  {| cls := cls e; id := id e; user_id := user_id e; type := type e;
     a := v; b := b e |}.

Definition set_b (v : Number) (e : Entity) : Entity :=
  {| cls := cls e; id := id e; user_id := user_id e; type := type e;
     a := a e; b := v |}.

End Models.

Import Models.

(* ===================================================================== *)
(** ** app/schema/calculation.py                                          *)
(* ===================================================================== *)

Module Schema.

(** [class CalculationType(str, Enum)]: a member compares equal to the str
    that is its [value]. *)
Inductive CalculationType :=
  | ADD
  | SUBTRACT
  | MULTIPLY
  | DIVIDE.

Definition value (t : CalculationType) : str :=
  match t with
  | ADD => lit "add"
  | SUBTRACT => lit "subtract"
  | MULTIPLY => lit "multiply"
  | DIVIDE => lit "divide"
  end.

Definition members : list CalculationType := [ADD; SUBTRACT; MULTIPLY; DIVIDE].

(** A value handed to a shape: what a request payload can hold.  [VOther]
    is any object that is no bool, int, float, str, UUID or None, with the
    double its [__float__] gives when it has one. *)
Inductive PyVal :=
  | VNone
  | VBool (b : bool)
  | VInt (z : Z)
  | VFloat (f : float)
  | VStr (s : str)
  | VUuid (u : uuid)
  | VOther (fl : option float).

(** [isinstance(v, str)], [isinstance(v, int)] (a bool is an int),
    [isinstance(v, float)]. *)
Definition isinstance_str (v : PyVal) : bool :=
  match v with VStr _ => true | _ => false end.

Definition isinstance_int (v : PyVal) : bool :=
  match v with VBool _ | VInt _ => true | _ => false end.

Definition isinstance_float (v : PyVal) : bool :=
  match v with VFloat _ => true | _ => false end.

(** The outcome of a validator function: it returns, or it raises
    [ValueError(msg)]. *)
Inductive Checked (A : Type) :=
  | Pass (x : A)
  | ValueErr (msg : str).
Arguments Pass {A} x.
Arguments ValueErr {A} msg.

(** [allowed = {i.value for i in CalculationType}] *)
Definition allowed : gset str := list_to_set (List.map value members).

Definition check_type_is_valid `{Host} (v : PyVal) : Checked PyVal :=
  match v with
  | VStr s =>
      if bool_decide (lower s ∈ allowed) then Pass (VStr (lower s))
      else ValueErr (lit "Type must be 'add', 'subtract', 'multiply' or 'divide'")
  | _ => ValueErr (lit "Type must be a string")
  end.

Definition check_a_is_number (v : PyVal) : Checked PyVal :=
  if negb (isinstance_int v) && negb (isinstance_float v)
  then ValueErr (lit "First value should be a number")
  else Pass v.

Definition check_b_is_number (v : PyVal) : Checked PyVal :=
  if negb (isinstance_int v) && negb (isinstance_float v)
  then ValueErr (lit "Second value should be a number")
  else Pass v.

(** *** What pydantic does around the validators

    One entry of a [ValidationError]: where it happened ([Some] field, or
    [None] for the model as a whole) and what. *)
Inductive ErrorKind :=
  | missing
  | value_error (msg : str)
  | string_type
  | string_too_long
  | float_type
  | float_parsing
  | uuid_type
  | uuid_parsing.

Record LineError := {
  loc : option str;
  err : ErrorKind
}.

(** The core validator of a [str] field, with the [max_length] of its
    [Field] when it has one.  In both shapes it runs on what
    [check_type_is_valid] returned, which is a str. *)
Definition core_str (max_length : option nat) (v : PyVal)
  : ErrorKind + str :=
  match v with
  | VStr s =>
      match max_length with
      | Some n => if (n <? length s)%nat then inl string_too_long else inr s
      | None => inr s
      end
  | _ => inl string_type
  end.

(** The core validator of a [float] field (lax mode): a float as it is, an
    int or a bool converted, a numeric string parsed, any other object
    through its [__float__]. *)
Definition core_float `{Host} (v : PyVal) : ErrorKind + float :=
  match v with
  | VFloat f => inr f
  | VInt z =>
      match int_to_float z with
      | Ok f => inr f
      | Raise _ => inl float_type
      end
  | VBool b => inr (if b then 1%float else 0%float)
  | VStr s =>
      match str_as_float s with
      | Some f => inr f
      | None => inl float_parsing
      end
  | VOther (Some f) => inr f
  | _ => inl float_type
  end.

(** The core validator of a [UUID] field: a UUID as it is, a str parsed. *)
Definition core_uuid `{Host} (v : PyVal) : ErrorKind + uuid :=
  match v with
  | VUuid u => inr u
  | VStr s =>
      match str_as_uuid s with
      | Some u => inr u
      | None => inl uuid_parsing
      end
  | _ => inl uuid_type
  end.

(** [@field_validator(.., mode="before")]: the function runs on the raw
    input; its [ValueError] is the field's error, its return value goes to
    the core validator. *)
Definition before {T : Type} (f : PyVal -> Checked PyVal)
    (core : PyVal -> ErrorKind + T) (v : PyVal) : ErrorKind + T :=
  match f v with
  | ValueErr msg => inl (value_error msg)
  | Pass v' => core v'
  end.

(** A required field of the payload. *)
Definition required {T : Type} (data : gmap str PyVal) (name : str)
    (validate : PyVal -> ErrorKind + T) : list LineError + T :=
  match data !! name with
  | None => inl [ {| loc := Some name; err := missing |} ]
  | Some v =>
      match validate v with
      | inl k => inl [ {| loc := Some name; err := k |} ]
      | inr x => inr x
      end
  end.

(** A field declared with [Field(None, ..)]: the default [None] is taken as
    it is when the key is absent. *)
Definition optional {T : Type} (data : gmap str PyVal) (name : str)
    (validate : PyVal -> ErrorKind + T) : list LineError + option T :=
  match data !! name with
  | None => inr None
  | Some v =>
      match validate v with
      | inl k => inl [ {| loc := Some name; err := k |} ]
      | inr x => inr (Some x)
      end
  end.

Definition errors {T : Type} (r : list LineError + T) : list LineError :=
  match r with
  | inl l => l
  | inr _ => []
  end.

(** **** CalculationBase and CalculationCreate *)

Record CalculationBase := {
  type : str;
  a : float;
  b : float
}.

Definition type_field `{Host} (max_length : option nat)
    (data : gmap str PyVal) : list LineError + str :=
  required data (lit "type") (before check_type_is_valid (core_str max_length)).

Definition a_field `{Host} (data : gmap str PyVal) : list LineError + float :=
  required data (lit "a") (before check_a_is_number core_float).

Definition b_field `{Host} (data : gmap str PyVal) : list LineError + float :=
  required data (lit "b") (before check_b_is_number core_float).

(** The fields are validated one by one, in declaration order, and every
    error is collected. *)
Definition base_fields `{Host} (max_length : option nat)
    (data : gmap str PyVal) : list LineError + CalculationBase :=
  match type_field max_length data, a_field data, b_field data with
  | inr t, inr x, inr y => inr {| type := t; a := x; b := y |}
  | rt, ra, rb => inl (errors rt ++ errors ra ++ errors rb)
  end.

Definition check_div_by_zero (self : CalculationBase)
  : Checked CalculationBase :=
  if bool_decide (type self = value DIVIDE) && (b self =? 0)%float
  then ValueErr (lit "Cannot divide by zero")
  else Pass self.

(** [@model_validator(mode="after")]: the function runs on the instance
    once every field is valid; its [ValueError] is an error of the model. *)
Definition after {T : Type} (f : T -> Checked T) (r : list LineError + T)
  : list LineError + T :=
  match r with
  | inl l => inl l
  | inr self =>
      match f self with
      | ValueErr msg => inl [ {| loc := None; err := value_error msg |} ]
      | Pass self' => inr self'
      end
  end.

(** Instantiating [CalculationBase] from the keyword arguments [data];
    [type] is declared with [max_length=50]. *)
Definition validate_base `{Host} (data : gmap str PyVal)
  : list LineError + CalculationBase :=
  after check_div_by_zero (base_fields (Some 50%nat) data).

(** [CalculationCreate] adds only a schema example. *)
Definition validate_create `{Host} (data : gmap str PyVal)
  : list LineError + CalculationBase :=
  validate_base data.

(** **** CalculationResponse

    The subclass declares [type], [a] and [b] again (without [max_length])
    and adds [id] and [result]; the validators of [CalculationBase] are
    inherited. *)
Record CalculationResponse := {
  base : CalculationBase;
  id : uuid;
  result : float
}.

Definition response_fields `{Host} (data : gmap str PyVal)
  : list LineError + CalculationResponse :=
  match base_fields None data,
        required data (lit "id") core_uuid,
        required data (lit "result") core_float with
  | inr s, inr i, inr r => inr {| base := s; id := i; result := r |}
  | rbase, rid, rres => inl (errors rbase ++ errors rid ++ errors rres)
  end.

(** The inherited [check_div_by_zero], run on a response instance: it reads
    [self.type] and [self.b]. *)
Definition check_div_by_zero_response (self : CalculationResponse)
  : Checked CalculationResponse :=
  match check_div_by_zero (base self) with
  | ValueErr msg => ValueErr msg
  | Pass _ => Pass self
  end.

Definition validate_response `{Host} (data : gmap str PyVal)
  : list LineError + CalculationResponse :=
  after check_div_by_zero_response (response_fields data).

(** **** CalculationUpdate: a plain [BaseModel] with two fields *)
Module Update.

Record CalculationUpdate := {
  a : option float;
  b : option float
}.

End Update.

Definition validate_update `{Host} (data : gmap str PyVal)
  : list LineError + Update.CalculationUpdate :=
  match optional data (lit "a") core_float,
        optional data (lit "b") core_float with
  | inr x, inr y => inr {| Update.a := x; Update.b := y |}
  | ra, rb => inl (errors ra ++ errors rb)
  end.

End Schema.

Import Schema.

(* ===================================================================== *)
(** ** The calls between the two layers                                   *)
(* ===================================================================== *)

Module Transport.

(** Modelled from the spec: the code that applies an update shape to a
    stored record is not under src.  The specification has the update
    shape accept "optional a, b for partial modification of an existing
    record" and the entity "never mutated except operands A/B (update
    path)": each operand the shape holds is assigned, the other stays. *)
Definition apply_update (u : Update.CalculationUpdate) (e : Entity) : Entity :=
  let e1 :=
    match Update.a u with
    | Some x => set_a (PyFloat x) e
    | None => e
    end in
  match Update.b u with
  | Some y => set_b (PyFloat y) e1
  | None => e1
  end.

Definition number_value (x : Number) : PyVal :=
  match x with
  | PyInt z => VInt z
  | PyFloat f => VFloat f
  end.

(** Modelled from the spec: the construction of a response from a record is
    not under src.  The specification has "a Response shape built from a
    persisted entity's (type, a, b) plus get_result()" that "carries
    identifier, type, a, b, and a computed result field".  [kind] is the
    string handed over as [type]; the specification hands over the
    entity's own, [response_of]. *)
Definition response_data (kind : str) (e : Entity) (r : Number)
  : gmap str PyVal :=
  list_to_map
    [ (lit "id", match Models.id e with
                 | Some i => VUuid i
                 | None => VNone
                 end);
      (lit "type", VStr kind);
      (lit "a", number_value (Models.a e));
      (lit "b", number_value (Models.b e));
      (lit "result", number_value r) ].

Definition response_of (e : Entity) (r : Number) : gmap str PyVal :=
  response_data (Models.type e) e r.

End Transport.

Import Transport.

(* ===================================================================== *)
(** ** Concrete inputs                                                    *)
(* ===================================================================== *)

Module Samples.

(** A host without Unicode tables and string parsers.  The inputs below are
    ASCII strings and numbers, for which the code consults none of them. *)
Definition plain_host : Host :=
  {| unicode_lower := fun s => s;
     str_as_float := fun _ => None;
     str_as_uuid := fun _ => None |}.

Definition owner : uuid := 7%N.

(** [Calculation(user_id=.., type="Addition", a=1, b=2)], the record of
    [test_calculation_recording]. *)
Definition recorded : Entity :=
  new Calculation owner (Some (lit "Addition")) (PyInt 1) (PyInt 2).

(** [Division(user_id=.., a=10, b=0)] of [test_division_by_zero]. *)
Definition division_10_0 : Entity :=
  new Division owner None (PyInt 10) (PyInt 0).

(** A flushed addition row: the identifier is assigned and the Float
    columns hold doubles. *)
Definition stored_addition : Entity :=
  {| cls := Addition;
     Models.id := Some 1%N;
     user_id := owner;
     Models.type := polymorphic_identity Addition;
     Models.a := PyFloat 10;
     Models.b := PyFloat 8.5 |}.

Definition field_error (name : string) (msg : string) : LineError :=
  {| loc := Some (lit name); err := value_error (lit msg) |}.

(** The model-level error of [check_div_by_zero]. *)
Definition cross_field_error : LineError :=
  {| loc := None; err := value_error (lit "Cannot divide by zero") |}.

(** The payloads of the schema tests. *)
Definition payload (t x y : PyVal) : gmap str PyVal :=
  list_to_map [ (lit "type", t); (lit "a", x); (lit "b", y) ].

Definition type_13 : gmap str PyVal := payload (VInt 13) (VInt 4) (VInt 5).

Definition type_invalid : gmap str PyVal :=
  payload (VStr (lit "invalid")) (VInt 4) (VInt 5).

Definition subtract_10_6 : gmap str PyVal :=
  payload (VStr (lit "subtract")) (VInt 10) (VInt 6).

Definition add_four_5 : gmap str PyVal :=
  payload (VStr (lit "add")) (VStr (lit "four")) (VInt 5).

Definition add_4_five : gmap str PyVal :=
  payload (VStr (lit "add")) (VInt 4) (VStr (lit "five")).

Definition divide_4_0 : gmap str PyVal :=
  payload (VStr (lit "Divide")) (VInt 4) (VInt 0).

Definition divide_four_0 : gmap str PyVal :=
  payload (VStr (lit "divide")) (VStr (lit "four")) (VInt 0).

(** An update that sets [b] to 0, with a [type] key that the shape has no
    field for. *)
Definition update_b_0 : gmap str PyVal := {[ lit "b" := VInt 0 ]}.

Definition update_b_0_type : gmap str PyVal :=
  <[ lit "type" := VStr (lit "add") ]> update_b_0.

(** A stored division row. *)
Definition stored_division : Entity :=
  {| cls := Division;
     Models.id := Some 2%N;
     user_id := owner;
     Models.type := polymorphic_identity Division;
     Models.a := PyFloat 10;
     Models.b := PyFloat 8.5 |}.

End Samples.

(* ===================================================================== *)
(** ** Properties of the entity hierarchy                                 *)
(* ===================================================================== *)

Section EntityFacts.

Context `{Host}.

(** Every monadic read leaves the state alone, so [get_result] does. *)
Lemma get_result_state (e : Entity) : snd (get_result e) = e.
Proof.
  unfold get_result, bind, gets, eval, raise.
  destruct e as [c i u t x y]; destruct c; simpl; try reflexivity.
  destruct (py_eq_0 y); reflexivity.
Qed.

(** The value [get_result] computes, by class. *)
Lemma get_result_value (e : Entity) :
  fst (get_result e) =
  match cls e with
  | Calculation => Raise NotImplementedError
  | Addition => py_add (Models.a e) (Models.b e)
  | Subtraction => py_sub (Models.a e) (Models.b e)
  | Multiplication => py_mul (Models.a e) (Models.b e)
  | Division =>
      if py_eq_0 (Models.b e) then Raise division_by_zero
      else py_truediv (Models.a e) (Models.b e)
  end.
Proof.
  unfold get_result, bind, gets, eval, raise.
  destruct e as [c i u t x y]; destruct c; simpl; try reflexivity.
  destruct (py_eq_0 y); reflexivity.
Qed.

(** Python's own arithmetic raises [OverflowError] or
    [ZeroDivisionError], never a [ValueError]. *)
Lemma as_double_no_value_error (x : Number) (msg : str) :
  as_double x <> Raise (ValueError msg).
Proof.
  destruct x as [z|f]; simpl; [|discriminate].
  unfold int_to_float. destruct (binary_normalize _ _ _ _ _); discriminate.
Qed.

Lemma py_truediv_no_value_error (x y : Number) (msg : str) :
  py_truediv x y <> Raise (ValueError msg).
Proof.
  assert (Hf : forall x y,
             float_binop (fun f g => if (g =? 0)%float
                                     then Raise ZeroDivisionError
                                     else Ok (PyFloat (f / g))) x y
             <> Raise (ValueError msg)).
  { intros x0 y0. unfold float_binop.
    pose proof (as_double_no_value_error x0 msg) as Hx.
    pose proof (as_double_no_value_error y0 msg) as Hy.
    destruct (as_double x0); [|congruence].
    destruct (as_double y0); [|congruence].
    destruct (_ =? _)%float; discriminate. }
  destruct x as [i|f], y as [j|g]; simpl; try apply Hf.
  destruct (j =? 0)%Z; [discriminate|].
  destruct (SFdiv _ _ _ _); discriminate.
Qed.

(** The keys of the dispatch table. *)
Lemma calculation_classes_lookup (k : str) :
  calculation_classes !! k =
  if decide (k = lit "addition") then Some Addition
  else if decide (k = lit "subtraction") then Some Subtraction
  else if decide (k = lit "multiplication") then Some Multiplication
  else if decide (k = lit "division") then Some Division
  else None.
Proof.
  unfold calculation_classes.
  rewrite !list_to_map_cons, list_to_map_nil, !lookup_insert, lookup_empty.
  repeat case_decide; subst; try reflexivity; try congruence; try done.
Qed.

Lemma create_cases {S : Type} (st : S) (s : str) (u : uuid) (x y : Number) :
  (lower s = lit "addition" /\
   create s u x y st = (Ok (new Addition u None x y), st)) \/
  (lower s = lit "subtraction" /\
   create s u x y st = (Ok (new Subtraction u None x y), st)) \/
  (lower s = lit "multiplication" /\
   create s u x y st = (Ok (new Multiplication u None x y), st)) \/
  (lower s = lit "division" /\
   create s u x y st = (Ok (new Division u None x y), st)) \/
  (~ In (lower s) operator_kinds /\
   create s u x y st = (Raise (unsupported s), st)).
Proof.
  unfold create. rewrite calculation_classes_lookup.
  destruct (decide (lower s = lit "addition")) as [->|Ha]; [left; done|].
  destruct (decide (lower s = lit "subtraction")) as [->|Hs];
    [right; left; done|].
  destruct (decide (lower s = lit "multiplication")) as [->|Hm];
    [right; right; left; done|].
  destruct (decide (lower s = lit "division")) as [->|Hd];
    [right; right; right; left; done|].
  right; right; right; right. split; [|reflexivity].
  unfold operator_kinds. simpl. intuition congruence.
Qed.

End EntityFacts.

(** C1: [get_result] is a pure function of (class, a, b) and does not
    mutate the entity: the state after the call is the entity it was called
    on, the value does not depend on the other columns, and it is Python's
    [a + b] for an Addition, [a - b] for a Subtraction, [a * b] for a
    Multiplication and, for a Division whose [b] is not equal to 0,
    [a / b].  On two floats these are the binary64 sum, difference, product
    and quotient, on two ints the exact sum, difference and product.  On
    the operands 10 and 8.5 of the tests the four values are 18.5, 1.5,
    85.0 and 1.1764705882352942. *)
Theorem get_result_pure_function :
  (forall e : Entity, snd (get_result e) = e) /\
  (forall c i u t i' u' t' x y,
      fst (get_result (Build_Entity c i u t x y)) =
      fst (get_result (Build_Entity c i' u' t' x y))) /\
  (forall i u t x y,
      fst (get_result (Build_Entity Addition i u t x y)) = py_add x y /\
      fst (get_result (Build_Entity Subtraction i u t x y)) = py_sub x y /\
      fst (get_result (Build_Entity Multiplication i u t x y)) = py_mul x y /\
      fst (get_result (Build_Entity Division i u t x y)) =
        if py_eq_0 y then Raise division_by_zero else py_truediv x y) /\
  (forall i u t (f g : float),
      fst (get_result (Build_Entity Addition i u t (PyFloat f) (PyFloat g)))
        = Ok (PyFloat (f + g)) /\
      fst (get_result (Build_Entity Subtraction i u t (PyFloat f) (PyFloat g)))
        = Ok (PyFloat (f - g)) /\
      fst (get_result (Build_Entity Multiplication i u t (PyFloat f) (PyFloat g)))
        = Ok (PyFloat (f * g)) /\
      fst (get_result (Build_Entity Division i u t (PyFloat f) (PyFloat g)))
        = if (g =? 0)%float then Raise division_by_zero
          else Ok (PyFloat (f / g))) /\
  (forall i u t (m n : Z),
      fst (get_result (Build_Entity Addition i u t (PyInt m) (PyInt n)))
        = Ok (PyInt (m + n)) /\
      fst (get_result (Build_Entity Subtraction i u t (PyInt m) (PyInt n)))
        = Ok (PyInt (m - n)) /\
      fst (get_result (Build_Entity Multiplication i u t (PyInt m) (PyInt n)))
        = Ok (PyInt (m * n))) /\
  (forall u,
      fst (get_result (new Addition u None (PyInt 10) (PyFloat 8.5)))
        = Ok (PyFloat 18.5) /\
      fst (get_result (new Subtraction u None (PyInt 10) (PyFloat 8.5)))
        = Ok (PyFloat 1.5) /\
      fst (get_result (new Multiplication u None (PyInt 10) (PyFloat 8.5)))
        = Ok (PyFloat 85.0) /\
      fst (get_result (new Division u None (PyInt 10) (PyFloat 8.5)))
        = Ok (PyFloat 1.1764705882352942)).
Proof.
  split; [exact get_result_state|].
  split; [intros; rewrite !get_result_value; reflexivity|].
  split.
  { intros. rewrite !get_result_value. simpl. repeat split. }
  split.
  { intros. rewrite !get_result_value. simpl. repeat split.
    unfold py_truediv, float_binop. simpl.
    destruct (g =? 0)%float; reflexivity. }
  split.
  { intros. rewrite !get_result_value. simpl. repeat split. }
  intros u. rewrite !get_result_value. simpl.
  repeat split; vm_compute; reflexivity.
Qed.

(** C2: [create] lowers the kind string and looks it up in the table: when
    the lowered string is "addition", "subtraction", "multiplication" or
    "division" it returns a fresh instance of the class of that name with
    the given owner and operands (so "AdDiTiOn" and "addition" both give an
    Addition); otherwise it raises the unsupported-type error whose message
    ends with the original string (for "power": "Unsupported calculation
    type: power").  In every case the state it runs against is untouched,
    and a failure returns no entity. *)
Theorem create_dispatch `{Host} :
  (forall (S : Type) (st : S) (s : str) (u : uuid) (x y : Number),
      (lower s = lit "addition" /\
       create s u x y st = (Ok (new Addition u None x y), st)) \/
      (lower s = lit "subtraction" /\
       create s u x y st = (Ok (new Subtraction u None x y), st)) \/
      (lower s = lit "multiplication" /\
       create s u x y st = (Ok (new Multiplication u None x y), st)) \/
      (lower s = lit "division" /\
       create s u x y st = (Ok (new Division u None x y), st)) \/
      (~ In (lower s) operator_kinds /\
       create s u x y st = (Raise (unsupported s), st))) /\
  (forall s : str,
      unsupported s = ValueError (lit "Unsupported calculation type: " ++ s)) /\
  (forall (S : Type) (st : S) (u : uuid) (x y : Number),
      create (lit "AdDiTiOn") u x y st = (Ok (new Addition u None x y), st) /\
      create (lit "addition") u x y st = (Ok (new Addition u None x y), st) /\
      create (lit "power") u x y st =
        (Raise (ValueError (lit "Unsupported calculation type: power")), st)).
Proof.
  split; [intros; apply create_cases|].
  split; [reflexivity|].
  intros S st u x y. repeat split.
Qed.

(** C3: [get_result] of a Division raises the division-by-zero error
    exactly when [b == 0], whatever [a] is.  The test is made by each call
    on the operands the entity holds at that time: a call leaves the entity
    as it was, a second call gives the same outcome, and after [b] is
    assigned a new value the outcome follows the new value.  [b == 0]
    holds of the int 0 and of both float zeros, and not of a NaN. *)
Theorem division_raises_iff_b_zero (i : option uuid) (u : uuid) (t : str)
    (x y : Number) :
  (fst (get_result (Build_Entity Division i u t x y)) = Raise division_by_zero
   <-> py_eq_0 y = true) /\
  snd (get_result (Build_Entity Division i u t x y))
    = Build_Entity Division i u t x y /\
  get_result (snd (get_result (Build_Entity Division i u t x y)))
    = get_result (Build_Entity Division i u t x y) /\
  (forall v : Number,
      fst (get_result
             (set_b v (snd (get_result (Build_Entity Division i u t x y)))))
        = Raise division_by_zero
      <-> py_eq_0 v = true) /\
  (py_eq_0 (PyInt 0) = true /\ py_eq_0 (PyFloat 0) = true /\
   py_eq_0 (PyFloat (-0)) = true /\ py_eq_0 (PyFloat nan) = false).
Proof.
  assert (Hiff : forall a0 b0,
             fst (get_result (Build_Entity Division i u t a0 b0))
               = Raise division_by_zero <-> py_eq_0 b0 = true).
  { intros a0 b0. rewrite get_result_value. simpl.
    destruct (py_eq_0 b0) eqn:Hb; split; intros Hr; try reflexivity;
      try discriminate.
    exfalso. eapply py_truediv_no_value_error. exact Hr. }
  split; [apply Hiff|].
  split; [apply get_result_state|].
  split; [rewrite get_result_state; reflexivity|].
  split; [intros v; rewrite get_result_state; apply Hiff|].
  repeat split.
Qed.

Lemma division_raises_iff_b_zero_witness :
  fst (get_result Samples.division_10_0) = Raise division_by_zero.
Proof.
  apply (proj2 (proj1 (division_raises_iff_b_zero
                  None Samples.owner (lit "division") (PyInt 10) (PyInt 0)))).
  reflexivity.
Defined.

(** C4: the Multiplication class declares the polymorphic identity
    "subtraction", the literal of the Subtraction class, and not
    "multiplication": a Multiplication instance, built directly or by the
    factory, computes [a * b] and carries "subtraction" in its [type]
    column. *)
Theorem multiplication_tagged_as_subtraction `{Host} :
  polymorphic_identity Multiplication = lit "subtraction" /\
  polymorphic_identity Subtraction = lit "subtraction" /\
  polymorphic_identity Multiplication <> lit "multiplication" /\
  (forall (u : uuid) (x y : Number),
      Models.type (new Multiplication u None x y) = lit "subtraction" /\
      fst (get_result (new Multiplication u None x y)) = py_mul x y) /\
  (forall (S : Type) (st : S) (u : uuid) (x y : Number),
      create (lit "multiplication") u x y st =
        (Ok (Build_Entity Multiplication None u (lit "subtraction") x y), st)).
Proof.
  repeat split.
  vm_compute. discriminate.
Qed.

(** C7, as the code has it: an entity returned by the factory [create] has
    one of the four operator kinds in its [type] column and is an instance
    of one of the four subclasses, and [create] rejects every string whose
    lowered form is not one of the four kinds; the class constructor checks
    nothing. *)
Theorem create_kind_closed `{Host} (S : Type) (st : S) (s : str) (u : uuid)
    (x y : Number) :
  match fst (create s u x y st) with
  | Ok e =>
      In (lower s) operator_kinds /\
      In (Models.type e) operator_kinds /\
      cls e <> Calculation
  | Raise ex => ~ In (lower s) operator_kinds /\ ex = unsupported s
  end.
Proof.
  destruct (create_cases st s u x y)
    as [[Hl ->]|[[Hl ->]|[[Hl ->]|[[Hl ->]|[Hl ->]]]]]; simpl;
    try (rewrite Hl; unfold operator_kinds; simpl; intuition congruence).
  split; [exact Hl|reflexivity].
Qed.

(** C7, the claim as stated fails: the record of
    [test_calculation_recording] is built by the class constructor with
    [type="Addition"]; it is an instance of the base class and its kind is
    none of the four, and so is one built with [type="power"] or with no
    [type] at all. *)
Lemma constructor_accepts_any_kind :
  cls Samples.recorded = Calculation /\
  Models.type Samples.recorded = lit "Addition" /\
  ~ In (Models.type Samples.recorded) operator_kinds /\
  ~ In (Models.type (new Calculation Samples.owner (Some (lit "power"))
                       (PyInt 12) (PyInt 13))) operator_kinds /\
  ~ In (Models.type (new Calculation Samples.owner None (PyInt 1) (PyInt 2)))
       operator_kinds.
Proof.
  repeat split; vm_compute; intuition discriminate.
Qed.

(* ===================================================================== *)
(** ** Properties of the validation shapes                                *)
(* ===================================================================== *)

Section SchemaFacts.

Context `{Host}.

Lemma allowed_spec (k : str) : k ∈ allowed <-> In k (List.map value members).
Proof.
  unfold allowed. rewrite elem_of_list_to_set. apply list_elem_of_In.
Qed.

Lemma allowed_short (k : str) :
  In k (List.map value members) -> (length k <= 8)%nat.
Proof.
  simpl. intros [<-|[<-|[<-|[<-|[]]]]]; vm_compute; lia.
Qed.

(** The type field, raw input to validated value: the before-validator
    followed by the core str validator. *)
Lemma type_check_cases (m : option nat) (v : PyVal) :
  m = None \/ m = Some 50%nat ->
  (isinstance_str v = false /\
   before check_type_is_valid (core_str m) v
     = inl (value_error (lit "Type must be a string"))) \/
  (exists s, v = VStr s /\ ~ In (lower s) (List.map value members) /\
   before check_type_is_valid (core_str m) v
     = inl (value_error
              (lit "Type must be 'add', 'subtract', 'multiply' or 'divide'"))) \/
  (exists s, v = VStr s /\ In (lower s) (List.map value members) /\
   before check_type_is_valid (core_str m) v = inr (lower s)).
Proof.
  intros Hm. unfold before, check_type_is_valid.
  destruct v as [| | | |s| |]; try (left; split; reflexivity).
  right. case_bool_decide as Hin; rewrite allowed_spec in Hin.
  - right. exists s. split; [reflexivity|]. split; [exact Hin|].
    unfold core_str. destruct Hm as [->| ->]; [reflexivity|].
    apply allowed_short in Hin.
    destruct (50 <? length (lower s))%nat eqn:Hlt; [|reflexivity].
    apply Nat.ltb_lt in Hlt. lia.
  - left. exists s. repeat split. exact Hin.
Qed.

Lemma required_inl {T : Type} (data : gmap str PyVal) (name : str)
    (validate : PyVal -> ErrorKind + T) (l : list LineError) :
  required data name validate = inl l ->
  exists k, l = [ {| loc := Some name; err := k |} ] /\
            (k = missing /\ data !! name = None \/
             exists v, data !! name = Some v /\ validate v = inl k).
Proof.
  unfold required. destruct (data !! name) as [v|] eqn:Hv.
  - destruct (validate v) as [k|x] eqn:Hk; [|discriminate].
    intros [= <-]. exists k. split; [reflexivity|]. right. eauto.
  - intros [= <-]. exists missing. split; [reflexivity|]. left. auto.
Qed.

Lemma required_inr {T : Type} (data : gmap str PyVal) (name : str)
    (validate : PyVal -> ErrorKind + T) (x : T) :
  required data name validate = inr x ->
  exists v, data !! name = Some v /\ validate v = inr x.
Proof.
  unfold required. destruct (data !! name) as [v|]; [|discriminate].
  destruct (validate v) as [k|x'] eqn:Hk; [discriminate|].
  intros [= <-]. eauto.
Qed.

Lemma required_lookup {T : Type} (data data' : gmap str PyVal) (name : str)
    (validate : PyVal -> ErrorKind + T) :
  data !! name = data' !! name ->
  required data name validate = required data' name validate.
Proof. unfold required. intros ->. reflexivity. Qed.

Lemma optional_lookup {T : Type} (data data' : gmap str PyVal) (name : str)
    (validate : PyVal -> ErrorKind + T) :
  data !! name = data' !! name ->
  optional data name validate = optional data' name validate.
Proof. unfold optional. intros ->. reflexivity. Qed.

(** What [base_fields] returns, from the three field results. *)
Lemma base_fields_inr (m : option nat) (data : gmap str PyVal)
    (s : CalculationBase) :
  base_fields m data = inr s <->
  type_field m data = inr (type s) /\
  a_field data = inr (a s) /\
  b_field data = inr (b s).
Proof.
  unfold base_fields.
  destruct (type_field m data) as [lt|t], (a_field data) as [la|x],
    (b_field data) as [lb|y]; destruct s as [t' x' y']; simpl;
    split; try discriminate; try (intros (? & ? & ?); discriminate).
  - intros [= -> -> ->]. auto.
  - intros ([= ->] & [= ->] & [= ->]). reflexivity.
Qed.

Lemma base_fields_inl (m : option nat) (data : gmap str PyVal)
    (l : list LineError) :
  base_fields m data = inl l ->
  l = errors (type_field m data) ++ errors (a_field data)
        ++ errors (b_field data).
Proof.
  unfold base_fields.
  destruct (type_field m data) as [lt|t], (a_field data) as [la|x],
    (b_field data) as [lb|y]; simpl; intros [= <-]; reflexivity.
Qed.

Lemma errors_required_loc {T : Type} (data : gmap str PyVal) (name : str)
    (validate : PyVal -> ErrorKind + T) :
  Forall (fun e => loc e = Some name) (errors (required data name validate)).
Proof.
  destruct (required data name validate) as [l|x] eqn:Hr; simpl.
  - apply required_inl in Hr as (k & -> & _). repeat constructor.
  - constructor.
Qed.

(** The accepted [type] is the lowered input and a member of the
    vocabulary. *)
Lemma type_field_inr (m : option nat) (data : gmap str PyVal) (t : str) :
  m = None \/ m = Some 50%nat ->
  type_field m data = inr t ->
  exists raw, data !! lit "type" = Some (VStr raw) /\ t = lower raw /\
              In t (List.map value members).
Proof.
  intros Hm Ht. apply required_inr in Ht as (v & Hv & Hc).
  destruct (type_check_cases m v Hm)
    as [[_ Hr]|[(s & -> & _ & Hr)|(s & -> & Hin & Hr)]];
    rewrite Hr in Hc; try discriminate.
  injection Hc as <-. eauto.
Qed.

End SchemaFacts.

(** C5: the [type] field of the create shape.  An input that is not a str
    is rejected with "Type must be a string"; a str whose lowered form is
    not "add", "subtract", "multiply" or "divide" is rejected with "Type
    must be 'add', 'subtract', 'multiply' or 'divide'"; any other str is
    accepted and the field holds its lowered form.  A rejection of the
    field is a rejection of the payload with that error at [type], and an
    accepted payload holds the lowered input.  An operand that is neither
    an int nor a float is rejected with the error of its own field. *)
Theorem type_field_validation `{Host} :
  (forall v : PyVal,
      (isinstance_str v = false /\
       before check_type_is_valid (core_str (Some 50%nat)) v
         = inl (value_error (lit "Type must be a string"))) \/
      (exists s, v = VStr s /\
         ~ In (lower s) [lit "add"; lit "subtract"; lit "multiply"; lit "divide"] /\
         before check_type_is_valid (core_str (Some 50%nat)) v
           = inl (value_error
                (lit "Type must be 'add', 'subtract', 'multiply' or 'divide'"))) \/
      (exists s, v = VStr s /\
         In (lower s) [lit "add"; lit "subtract"; lit "multiply"; lit "divide"] /\
         before check_type_is_valid (core_str (Some 50%nat)) v
           = inr (lower s))) /\
  (forall (data : gmap str PyVal) (v : PyVal) (k : ErrorKind),
      data !! lit "type" = Some v ->
      before check_type_is_valid (core_str (Some 50%nat)) v = inl k ->
      exists rest,
        validate_create data
          = inl ({| loc := Some (lit "type"); err := k |} :: rest)) /\
  (forall (data : gmap str PyVal) (s : CalculationBase),
      validate_create data = inr s ->
      exists raw, data !! lit "type" = Some (VStr raw) /\
                  type s = lower raw /\
                  In (type s) [lit "add"; lit "subtract"; lit "multiply"; lit "divide"]) /\
  (forall v : PyVal,
      isinstance_int v = false -> isinstance_float v = false ->
      before check_a_is_number core_float v
        = inl (value_error (lit "First value should be a number")) /\
      before check_b_is_number core_float v
        = inl (value_error (lit "Second value should be a number"))) /\
  (before check_type_is_valid (core_str (Some 50%nat)) (VInt 13)
     = inl (value_error (lit "Type must be a string")) /\
   before check_type_is_valid (core_str (Some 50%nat)) (VStr (lit "invalid"))
     = inl (value_error
              (lit "Type must be 'add', 'subtract', 'multiply' or 'divide'")) /\
   before check_type_is_valid (core_str (Some 50%nat)) (VStr (lit "Divide"))
     = inr (lit "divide") /\
   validate_create Samples.type_13
     = inl [Samples.field_error "type" "Type must be a string"] /\
   validate_create Samples.type_invalid
     = inl [Samples.field_error "type"
              "Type must be 'add', 'subtract', 'multiply' or 'divide'"] /\
   validate_create Samples.add_four_5
     = inl [Samples.field_error "a" "First value should be a number"] /\
   validate_create Samples.add_4_five
     = inl [Samples.field_error "b" "Second value should be a number"] /\
   validate_create Samples.subtract_10_6
     = inr {| type := lit "subtract"; a := 10; b := 6 |}).
Proof.
  split; [intros v; apply (type_check_cases (Some 50%nat) v); auto|].
  split.
  { intros data v k Hv Hk.
    unfold validate_create, validate_base, base_fields, type_field at 1.
    unfold required at 1. rewrite Hv, Hk.
    destruct (a_field data), (b_field data); simpl; eexists; reflexivity. }
  split.
  { intros data s Hs. unfold validate_create, validate_base, after in Hs.
    destruct (base_fields (Some 50%nat) data) as [l|s0] eqn:Hb; [discriminate|].
    unfold check_div_by_zero in Hs.
    destruct (_ && _); [discriminate|]. injection Hs as <-.
    apply base_fields_inr in Hb as (Ht & _ & _).
    apply type_field_inr in Ht as (raw & Hraw & Hl & Hin); [|auto].
    exists raw. repeat split; assumption. }
  split.
  { intros v Hi Hf. unfold before, check_a_is_number, check_b_is_number.
    rewrite Hi, Hf. split; reflexivity. }
  repeat split.
Qed.

Lemma type_field_validation_witness :
  exists rest,
    @validate_create Samples.plain_host Samples.type_13
      = inl (Samples.field_error "type" "Type must be a string" :: rest).
Proof.
  apply (proj1 (proj2 (@type_field_validation Samples.plain_host))
           Samples.type_13 (VInt 13)); reflexivity.
Defined.

(** C6: in the create shape the three fields are validated first, each from
    its own key only, and their errors are collected; [check_div_by_zero]
    runs only when all three are valid.  When the fields are valid the
    payload is rejected with "Cannot divide by zero" exactly when the
    validated type (the lowered input) is "divide" and [b == 0], and is
    accepted otherwise; when a field is invalid the errors reported are the
    field errors, each located at [type], [a] or [b], and the cross-field
    error is not among them. *)
Theorem cross_field_check_after_fields `{Host} :
  (forall (data : gmap str PyVal) (s : CalculationBase),
      base_fields (Some 50%nat) data = inr s ->
      validate_create data =
        if bool_decide (type s = lit "divide") && (b s =? 0)%float
        then inl [Samples.cross_field_error]
        else inr s) /\
  (forall (data : gmap str PyVal) (l : list LineError),
      base_fields (Some 50%nat) data = inl l ->
      validate_create data = inl l /\
      l <> [] /\
      l = errors (type_field (Some 50%nat) data) ++ errors (a_field data)
            ++ errors (b_field data) /\
      Forall (fun e => loc e = Some (lit "type") \/ loc e = Some (lit "a")
                       \/ loc e = Some (lit "b")) l /\
      ~ In Samples.cross_field_error l) /\
  (forall data data' : gmap str PyVal,
      (data !! lit "type" = data' !! lit "type" ->
       type_field (Some 50%nat) data = type_field (Some 50%nat) data') /\
      (data !! lit "a" = data' !! lit "a" -> a_field data = a_field data') /\
      (data !! lit "b" = data' !! lit "b" -> b_field data = b_field data')) /\
  (forall (data : gmap str PyVal) (s : CalculationBase),
      base_fields (Some 50%nat) data = inr s ->
      exists raw, data !! lit "type" = Some (VStr raw) /\ type s = lower raw) /\
  (validate_create Samples.divide_4_0 = inl [Samples.cross_field_error] /\
   validate_create Samples.divide_four_0
     = inl [Samples.field_error "a" "First value should be a number"]).
Proof.
  split.
  { intros data s Hs. unfold validate_create, validate_base, after.
    rewrite Hs. unfold check_div_by_zero.
    destruct (_ && _); reflexivity. }
  split.
  { intros data l Hl. split.
    { unfold validate_create, validate_base, after. rewrite Hl. reflexivity. }
    pose proof (base_fields_inl _ _ _ Hl) as Heq.
    assert (Hloc : Forall (fun e => loc e = Some (lit "type")
                                    \/ loc e = Some (lit "a")
                                    \/ loc e = Some (lit "b")) l).
    { rewrite Heq. unfold type_field, a_field, b_field.
      rewrite !Forall_app. repeat split;
        (eapply Forall_impl; [apply errors_required_loc|]); simpl; auto. }
    split.
    { intros ->. unfold base_fields in Hl.
      unfold type_field, a_field, b_field in *.
      destruct (required data (lit "type") _) as [lt|t] eqn:Ht;
        [apply required_inl in Ht as (k & -> & _); discriminate|].
      destruct (required data (lit "a") _) as [la|x] eqn:Ha;
        [apply required_inl in Ha as (k & -> & _); discriminate|].
      destruct (required data (lit "b") _) as [lb|y] eqn:Hb;
        [apply required_inl in Hb as (k & -> & _); discriminate|].
      discriminate. }
    split; [exact Heq|]. split; [exact Hloc|].
    intros Hin. apply list_elem_of_In in Hin. rewrite Forall_forall in Hloc.
    destruct (Hloc _ Hin) as [Hc|[Hc|Hc]]; discriminate. }
  split.
  { intros data data'. repeat split; intros Hk;
      unfold type_field, a_field, b_field; apply required_lookup; exact Hk. }
  split.
  { intros data s Hs. apply base_fields_inr in Hs as (Ht & _ & _).
    apply type_field_inr in Ht as (raw & Hraw & Hl & _); [|auto]. eauto. }
  split; vm_compute; reflexivity.
Qed.

Lemma cross_field_check_after_fields_witness :
  @validate_create Samples.plain_host Samples.divide_4_0
    = inl [Samples.cross_field_error].
Proof.
  rewrite (proj1 (@cross_field_check_after_fields Samples.plain_host)
             Samples.divide_4_0
             {| type := lit "divide"; a := 4; b := 0 |});
    reflexivity.
Defined.

Section BoundaryFacts.

Context `{Host}.

Lemma response_data_lookup (kind : str) (e : Entity) (r : Number) :
  response_data kind e r !! lit "type" = Some (VStr kind) /\
  response_data kind e r !! lit "a" = Some (number_value (Models.a e)) /\
  response_data kind e r !! lit "b" = Some (number_value (Models.b e)) /\
  response_data kind e r !! lit "result" = Some (number_value r) /\
  response_data kind e r !! lit "id"
    = Some (match Models.id e with Some i => VUuid i | None => VNone end).
Proof. repeat split. Qed.

(** The entity's kinds are not in the vocabulary of the schema. *)
Lemma operator_kinds_not_allowed (k : str) :
  In k operator_kinds -> ~ In (lower k) (List.map value members).
Proof.
  unfold operator_kinds. simpl.
  intros [<-|[<-|[<-|[<-|[]]]]]; vm_compute; intuition discriminate.
Qed.

Lemma core_float_errors (v : PyVal) (k : ErrorKind) :
  core_float v = inl k -> k = float_type \/ k = float_parsing.
Proof.
  destruct v as [| |z| |s| |[f|]]; simpl; try (intros [= <-]; auto);
    try discriminate.
  - destruct (int_to_float z); [discriminate|]. intros [= <-]. auto.
  - destruct (str_as_float s); [discriminate|]. intros [= <-]. auto.
Qed.

Lemma optional_inl {T : Type} (data : gmap str PyVal) (name : str)
    (validate : PyVal -> ErrorKind + T) (l : list LineError) :
  optional data name validate = inl l ->
  exists v k, data !! name = Some v /\ validate v = inl k /\
              l = [ {| loc := Some name; err := k |} ].
Proof.
  unfold optional. destruct (data !! name) as [v|]; [|discriminate].
  destruct (validate v) as [k|x] eqn:Hk; [|discriminate].
  intros [= <-]. eauto.
Qed.

Lemma errors_optional {T : Type} (data : gmap str PyVal) (name : str)
    (validate : PyVal -> ErrorKind + T) (e : LineError) :
  In e (errors (optional data name validate)) ->
  loc e = Some name /\ exists v, data !! name = Some v /\ validate v = inl (err e).
Proof.
  destruct (optional data name validate) as [l|x] eqn:Ho; simpl; [|tauto].
  apply optional_inl in Ho as (v & k & Hv & Hk & ->). simpl.
  intros [<-|[]]. simpl. eauto.
Qed.

Lemma validate_update_errors (data : gmap str PyVal) :
  errors (validate_update data)
  = errors (optional data (lit "a") core_float)
      ++ errors (optional data (lit "b") core_float).
Proof.
  unfold validate_update.
  destruct (optional data (lit "a") core_float),
    (optional data (lit "b") core_float); reflexivity.
Qed.

(** The update path assigns operands only. *)
Lemma apply_update_frame (u : Update.CalculationUpdate) (e : Entity) :
  cls (apply_update u e) = cls e /\
  Models.id (apply_update u e) = Models.id e /\
  user_id (apply_update u e) = user_id e /\
  Models.type (apply_update u e) = Models.type e.
Proof.
  unfold apply_update. destruct u as [[x|] [y|]]; simpl; auto.
Qed.

End BoundaryFacts.

(** C8, as the code has it: for a stored record (identifier assigned,
    operands read back from the Float columns) whose result is computed,
    a response built from its identifier, operands and result succeeds and
    holds that result when the type handed over is in the vocabulary of the
    schema ("add", "subtract", "multiply", "divide", in any case) and the
    inherited divide-by-zero rule does not apply; [response.result ==
    entity.get_result()] then holds unless the result is a NaN.  Built with
    the record's own kind ("addition", "subtraction", "multiplication",
    "division") the response is rejected by the inherited type validator. *)
Theorem response_carries_result `{Host} (c : Class) (i u : uuid)
    (k kind : str) (x y f : float) :
  fst (get_result (Build_Entity c (Some i) u k (PyFloat x) (PyFloat y)))
    = Ok (PyFloat f) ->
  (In (lower kind) [lit "add"; lit "subtract"; lit "multiply"; lit "divide"] ->
   (lower kind = lit "divide" -> (y =? 0)%float = false) ->
   exists resp : CalculationResponse,
     validate_response
       (response_data kind
          (Build_Entity c (Some i) u k (PyFloat x) (PyFloat y)) (PyFloat f))
       = inr resp /\
     resp = {| base := {| type := lower kind; a := x; b := y |};
               id := i; result := f |} /\
     fst (get_result (Build_Entity c (Some i) u k (PyFloat x) (PyFloat y)))
       = Ok (PyFloat (result resp)) /\
     (is_nan f = false -> (result resp =? f)%float = true)) /\
  (In k operator_kinds ->
   validate_response
     (response_of (Build_Entity c (Some i) u k (PyFloat x) (PyFloat y))
        (PyFloat f))
     = inl [Samples.field_error "type"
              "Type must be 'add', 'subtract', 'multiply' or 'divide'"]).
Proof.
  intros Hres. split.
  - intros Hin Hdiv.
    eexists. split; [|split; [reflexivity|split; [exact Hres|]]].
    + unfold validate_response, response_fields, base_fields, type_field,
        a_field, b_field, required.
      destruct (response_data_lookup kind
                  (Build_Entity c (Some i) u k (PyFloat x) (PyFloat y))
                  (PyFloat f)) as (-> & -> & -> & -> & ->).
      destruct (type_check_cases None (VStr kind))
        as [[Hs _]|[(s & [= <-] & Hn & _)|(s & [= <-] & _ & ->)]];
        [auto|discriminate|contradiction|].
      simpl. unfold check_div_by_zero_response, check_div_by_zero. simpl.
      case_bool_decide as Hd; simpl; [|reflexivity].
      rewrite (Hdiv Hd). reflexivity.
    + simpl. unfold is_nan. intros Hn.
      destruct (f =? f)%float; [reflexivity|discriminate].
  - intros Hk. apply operator_kinds_not_allowed in Hk.
    unfold response_of. simpl Models.type.
    unfold validate_response, response_fields, base_fields, type_field,
      a_field, b_field, required.
    destruct (response_data_lookup k
                (Build_Entity c (Some i) u k (PyFloat x) (PyFloat y))
                (PyFloat f)) as (-> & -> & -> & -> & ->).
    destruct (type_check_cases None (VStr k))
      as [[Hs _]|[(s & [= <-] & _ & ->)|(s & [= <-] & Hin & _)]];
      [auto|discriminate| |contradiction].
    reflexivity.
Qed.

Lemma response_carries_result_witness :
  exists resp : CalculationResponse,
    @validate_response Samples.plain_host
      (response_data (lit "add") Samples.stored_addition (PyFloat 18.5))
      = inr resp /\
    resp = {| base := {| type := lit "add"; a := 10; b := 8.5 |};
              id := 1%N; result := 18.5 |} /\
    fst (get_result Samples.stored_addition) = Ok (PyFloat (result resp)) /\
    (is_nan 18.5 = false -> (result resp =? 18.5)%float = true).
Proof.
  apply (proj1 (@response_carries_result Samples.plain_host Addition 1%N
                  Samples.owner (lit "addition") (lit "add") 10 8.5 18.5
                  eq_refl)).
  - vm_compute. auto.
  - vm_compute. discriminate.
Defined.

(** C8, the claim as stated fails: the stored addition of 10 and 8.5 has
    the result 18.5, and the response built from its own type, operands and
    result is rejected: "addition" is not a type of the schema. *)
Lemma response_rejects_entity_kind :
  get_result Samples.stored_addition
    = (Ok (PyFloat 18.5), Samples.stored_addition) /\
  Models.type Samples.stored_addition = lit "addition" /\
  @validate_response Samples.plain_host
    (response_of Samples.stored_addition (PyFloat 18.5))
    = inl [Samples.field_error "type"
             "Type must be 'add', 'subtract', 'multiply' or 'divide'"].
Proof. repeat split. Qed.

(** C9: the update shape has the two optional fields [a] and [b] and no
    other: a key that is neither of them, [type] included, is ignored, and
    the empty payload is accepted with both fields unset.  Applying an
    accepted update assigns the operands it holds and leaves the class, the
    identifier, the owner and the [type] column of the record as they
    were. *)
Theorem update_keeps_kind `{Host} :
  (forall (data : gmap str PyVal) (u : Update.CalculationUpdate) (e : Entity),
      validate_update data = inr u ->
      cls (apply_update u e) = cls e /\
      Models.id (apply_update u e) = Models.id e /\
      user_id (apply_update u e) = user_id e /\
      Models.type (apply_update u e) = Models.type e /\
      Models.a (apply_update u e)
        = match Update.a u with Some x => PyFloat x | None => Models.a e end /\
      Models.b (apply_update u e)
        = match Update.b u with Some y => PyFloat y | None => Models.b e end) /\
  (forall (data : gmap str PyVal) (k : str) (v : PyVal),
      k <> lit "a" -> k <> lit "b" ->
      validate_update (<[k:=v]> data) = validate_update data) /\
  (forall (data : gmap str PyVal) (v : PyVal),
      validate_update (<[lit "type":=v]> data) = validate_update data) /\
  validate_update ∅ = inr {| Update.a := None; Update.b := None |}.
Proof.
  assert (Hign : forall (data : gmap str PyVal) (k : str) (v : PyVal),
             k <> lit "a" -> k <> lit "b" ->
             validate_update (<[k:=v]> data) = validate_update data).
  { intros data k v Ha Hb. unfold validate_update.
    rewrite (optional_lookup (<[k:=v]> data) data (lit "a")),
      (optional_lookup (<[k:=v]> data) data (lit "b"));
      [reflexivity| |]; apply lookup_insert_ne; assumption. }
  split.
  { intros data u e _.
    destruct (apply_update_frame u e) as (Hc & Hi & Hu & Ht).
    repeat split; try assumption;
      unfold apply_update; destruct u as [[x|] [y|]]; reflexivity. }
  split; [exact Hign|].
  split; [|reflexivity].
  intros data v. apply Hign; vm_compute; discriminate.
Qed.

Lemma update_keeps_kind_witness :
  cls (apply_update {| Update.a := None; Update.b := Some 0%float |}
         Samples.stored_division) = Division /\
  Models.type (apply_update {| Update.a := None; Update.b := Some 0%float |}
                 Samples.stored_division) = lit "division".
Proof.
  destruct (proj1 (@update_keeps_kind Samples.plain_host)
              Samples.update_b_0_type
              {| Update.a := None; Update.b := Some 0%float |}
              Samples.stored_division eq_refl)
    as (Hc & _ & _ & Ht & _).
  split; [exact Hc|exact Ht].
Defined.

(** C10: the update shape runs none of the validators of the create shape.
    Its only errors are those of the float fields themselves, located at
    [a] or [b]: never a "should be a number" error, never "Cannot divide by
    zero".  A payload that sets [b] to 0 is accepted, whatever record it is
    meant for; once that value is assigned to a Division, [get_result]
    raises the division-by-zero error. *)
Theorem update_runs_no_validators `{Host} :
  (forall (data : gmap str PyVal) (e : LineError),
      In e (errors (validate_update data)) ->
      (loc e = Some (lit "a") \/ loc e = Some (lit "b")) /\
      (err e = float_type \/ err e = float_parsing) /\
      (forall msg : str, err e <> value_error msg)) /\
  (forall (data : gmap str PyVal) (z : PyVal),
      z = VInt 0 \/ z = VFloat 0 \/ z = VFloat (-0) ->
      data !! lit "a" = None ->
      data !! lit "b" = Some z ->
      exists y : float,
        validate_update data = inr {| Update.a := None; Update.b := Some y |} /\
        py_eq_0 (PyFloat y) = true) /\
  (forall (e : Entity) (v : Number),
      cls e = Division -> py_eq_0 v = true ->
      fst (get_result (set_b v e)) = Raise division_by_zero) /\
  (validate_update Samples.update_b_0
     = inr {| Update.a := None; Update.b := Some 0%float |} /\
   validate_create Samples.divide_4_0 = inl [Samples.cross_field_error] /\
   fst (get_result (set_b (PyFloat 0) Samples.stored_division))
     = Raise division_by_zero).
Proof.
  split.
  { intros data e. rewrite validate_update_errors, in_app_iff.
    intros [Hin|Hin]; apply errors_optional in Hin as (Hl & v & _ & Hk);
      apply core_float_errors in Hk;
      (split; [auto|]); (split; [exact Hk|]);
      intros msg; destruct Hk as [-> | ->]; discriminate. }
  split.
  { intros data z Hz Ha Hb. unfold validate_update, optional.
    rewrite Ha, Hb.
    destruct Hz as [-> |[-> | ->]]; eexists; split; reflexivity. }
  split.
  { intros e v Hc Hv. rewrite get_result_value.
    destruct e as [c i u t x y]; simpl in *. subst c. rewrite Hv.
    reflexivity. }
  repeat split.
Qed.

Lemma update_runs_no_validators_witness :
  exists y : float,
    @validate_update Samples.plain_host Samples.update_b_0
      = inr {| Update.a := None; Update.b := Some y |} /\
    py_eq_0 (PyFloat y) = true.
Proof.
  apply (proj1 (proj2 (@update_runs_no_validators Samples.plain_host))
           Samples.update_b_0 (VInt 0)).
  - left. reflexivity.
  - reflexivity.
  - reflexivity.
Defined.

(* ===================================================================== *)
(** ** Further properties of the two layers                               *)
(* ===================================================================== *)

Section LayerFacts.

Context `{Host}.

(** The types of the schema are lowercase ASCII: lowering leaves them. *)
Lemma vocabulary_lower (t : str) :
  In t (List.map value members) -> lower t = t.
Proof. simpl. intros [<-|[<-|[<-|[<-|[]]]]]; reflexivity. Qed.

(** No string is both a type of the schema and a kind of the factory. *)
Lemma vocabulary_not_kind (t : str) :
  In t (List.map value members) -> ~ In t operator_kinds.
Proof.
  simpl. intros [<-|[<-|[<-|[<-|[]]]]]; vm_compute; intuition discriminate.
Qed.

Lemma validate_create_inr (data : gmap str PyVal) (s : CalculationBase) :
  validate_create data = inr s <->
  base_fields (Some 50%nat) data = inr s /\
  bool_decide (Schema.type s = value DIVIDE) && (Schema.b s =? 0)%float = false.
Proof.
  unfold validate_create, validate_base, after, check_div_by_zero.
  destruct (base_fields (Some 50%nat) data) as [l|s0].
  - split; [discriminate|intros [? _]; discriminate].
  - destruct (bool_decide (Schema.type s0 = value DIVIDE)
              && (Schema.b s0 =? 0)%float) eqn:Hg.
    + split; [discriminate|]. intros [[= ->] Hg']. congruence.
    + split; [intros [= ->]; auto|intros [[= ->] _]; reflexivity].
Qed.

(** Either every field is valid, or the payload is rejected with the
    errors of the fields, in field order. *)
Lemma validate_create_fields (data : gmap str PyVal) :
  (exists s, base_fields (Some 50%nat) data = inr s) \/
  validate_create data
    = inl (errors (type_field (Some 50%nat) data) ++ errors (a_field data)
             ++ errors (b_field data)).
Proof.
  destruct (base_fields (Some 50%nat) data) as [l|s] eqn:Hb; [right|eauto].
  unfold validate_create, validate_base, after. rewrite Hb.
  apply base_fields_inl in Hb. congruence.
Qed.

Lemma errors_required_in {T : Type} (data : gmap str PyVal) (name : str)
    (validate : PyVal -> ErrorKind + T) (e : LineError) :
  In e (errors (required data name validate)) ->
  loc e = Some name /\
  (err e = missing /\ data !! name = None \/
   exists v, data !! name = Some v /\ validate v = inl (err e)).
Proof.
  destruct (required data name validate) as [l|x] eqn:Hr; simpl; [|tauto].
  apply required_inl in Hr as (k & -> & Hk). intros [<-|[]]. simpl. auto.
Qed.

Lemma errors_required_singleton {T : Type} (data : gmap str PyVal)
    (name : str) (validate : PyVal -> ErrorKind + T) :
  errors (required data name validate) = [] \/
  exists k, errors (required data name validate)
            = [ {| loc := Some name; err := k |} ].
Proof.
  destruct (required data name validate) as [l|x] eqn:Hr; simpl; [|auto].
  apply required_inl in Hr as (k & -> & _). eauto.
Qed.

(** An operand that passes its before-validator is a bool, an int or a
    float; only an int too large for a double is then refused. *)
Lemma operand_errors (f : PyVal -> Checked PyVal) (msg : str) (v : PyVal)
    (k : ErrorKind) :
  (forall w, f w = if negb (isinstance_int w) && negb (isinstance_float w)
                   then ValueErr msg else Pass w) ->
  before f core_float v = inl k ->
  k = value_error msg \/ k = float_type.
Proof.
  intros Hf. unfold before. rewrite Hf.
  destruct v as [| |z| | | |]; simpl; try (intros [= <-]; auto);
    try discriminate.
  destruct (int_to_float z); [discriminate|]. intros [= <-]. auto.
Qed.

Lemma payload_lookup (t x y : PyVal) :
  Samples.payload t x y !! lit "type" = Some t /\
  Samples.payload t x y !! lit "a" = Some x /\
  Samples.payload t x y !! lit "b" = Some y.
Proof. repeat split. Qed.

(** Pure-ASCII strings with the same lowercase letters have the same
    lowered form. *)
Lemma lower_ascii_case (s s' : str) :
  is_ascii s = true -> is_ascii s' = true ->
  List.map ascii_lower s = List.map ascii_lower s' ->
  lower s = lower s'.
Proof. unfold lower. intros -> -> Hm. exact Hm. Qed.

(** Conversions raise [OverflowError] only. *)
Lemma as_double_overflow_only (x : Number) (e : Exc) :
  as_double x = Raise e -> e = OverflowError.
Proof.
  destruct x as [z|f]; simpl; [|discriminate].
  unfold int_to_float. destruct (binary_normalize _ _ _ _ _);
    try discriminate. intros [= <-]. reflexivity.
Qed.

Lemma float_binop_no_zero_division
    (op : float -> float -> Res Number) (x y : Number) :
  (forall f g, as_double y = Ok g -> op f g <> Raise ZeroDivisionError) ->
  float_binop op x y <> Raise ZeroDivisionError.
Proof.
  intros Hop. unfold float_binop.
  destruct (as_double x) as [f|e] eqn:Hx.
  - destruct (as_double y) as [g|e] eqn:Hy; [apply Hop; reflexivity|].
    apply as_double_overflow_only in Hy as ->. discriminate.
  - apply as_double_overflow_only in Hx as ->. discriminate.
Qed.

End LayerFacts.

(** X1: the two layers share no operation name.  A type the create shape
    accepts is refused by the factory as unsupported, and a kind the
    factory accepts is refused by the type validator of the schema. *)
Theorem schema_types_unknown_to_factory `{Host} :
  (forall (data : gmap str PyVal) (s : CalculationBase) (S : Type) (st : S)
          (u : uuid) (x y : Number),
      validate_create data = inr s ->
      create (Schema.type s) u x y st
        = (Raise (unsupported (Schema.type s)), st)) /\
  (forall (S : Type) (st : S) (k : str) (u : uuid) (x y : Number) (e : Entity),
      create k u x y st = (Ok e, st) ->
      before check_type_is_valid (core_str (Some 50%nat)) (VStr k)
        = inl (value_error
                 (lit "Type must be 'add', 'subtract', 'multiply' or 'divide'"))).
Proof.
  split.
  - intros data s S st u x y Hs.
    apply validate_create_inr in Hs as [Hb _].
    apply base_fields_inr in Hb as (Ht & _ & _).
    apply type_field_inr in Ht as (raw & _ & _ & Hin); [|auto].
    pose proof (vocabulary_not_kind _ Hin) as Hk.
    destruct (create_cases st (Schema.type s) u x y)
      as [[Hl _]|[[Hl _]|[[Hl _]|[[Hl _]|[_ Hc]]]]];
      try (rewrite (vocabulary_lower _ Hin) in Hl; exfalso; apply Hk;
           rewrite Hl; unfold operator_kinds; simpl; tauto).
    exact Hc.
  - intros S st k u x y e Hc.
    assert (Hin : In (lower k) operator_kinds).
    { destruct (create_cases st k u x y)
        as [[Hl _]|[[Hl _]|[[Hl _]|[[Hl _]|[_ Hr]]]]];
        try (rewrite Hl; unfold operator_kinds; simpl; tauto).
      rewrite Hr in Hc. discriminate. }
    destruct (type_check_cases (Some 50%nat) (VStr k))
      as [[Hs _]|[(s & [= <-] & _ & Hr)|(s & [= <-] & Hv & _)]];
      [auto|discriminate|exact Hr|].
    exfalso. exact (vocabulary_not_kind _ Hv Hin).
Qed.

Lemma schema_types_unknown_to_factory_witness :
  @create Samples.plain_host unit (lit "subtract") Samples.owner
    (PyInt 10) (PyInt 6) tt
    = (Raise (unsupported (lit "subtract")), tt).
Proof.
  apply (proj1 (@schema_types_unknown_to_factory Samples.plain_host)
           Samples.subtract_10_6
           {| Schema.type := lit "subtract"; Schema.a := 10; Schema.b := 6 |}).
  reflexivity.
Defined.

(** X2: validation is idempotent on what it returns.  The type, a and b of
    an instance the create shape returned, handed to the shape again, give
    the same instance. *)
Theorem create_shape_revalidates `{Host} (data : gmap str PyVal)
    (s : CalculationBase) :
  validate_create data = inr s ->
  validate_create
    (Samples.payload (VStr (Schema.type s)) (VFloat (Schema.a s))
       (VFloat (Schema.b s)))
    = inr s.
Proof.
  intros Hs. apply validate_create_inr in Hs as [Hb Hg].
  apply validate_create_inr. split; [|exact Hg].
  apply base_fields_inr in Hb as (Ht & _ & _).
  apply type_field_inr in Ht as (raw & _ & _ & Hin); [|auto].
  apply base_fields_inr.
  unfold type_field, a_field, b_field, required.
  destruct (payload_lookup (VStr (Schema.type s)) (VFloat (Schema.a s))
              (VFloat (Schema.b s))) as (-> & -> & ->).
  repeat split.
  destruct (type_check_cases (Some 50%nat) (VStr (Schema.type s)))
    as [[Hs _]|[(t & [= <-] & Hn & _)|(t & [= <-] & _ & ->)]];
    [auto|discriminate| |].
  - exfalso. apply Hn. rewrite (vocabulary_lower _ Hin). exact Hin.
  - rewrite (vocabulary_lower _ Hin). reflexivity.
Qed.

Lemma create_shape_revalidates_witness :
  @validate_create Samples.plain_host
    (Samples.payload (VStr (lit "divide")) (VFloat 4) (VFloat 2))
    = inr {| Schema.type := lit "divide"; Schema.a := 4; Schema.b := 2 |}.
Proof.
  apply (@create_shape_revalidates Samples.plain_host
           (Samples.payload (VStr (lit "DIVIDE")) (VInt 4) (VInt 2))
           {| Schema.type := lit "divide"; Schema.a := 4; Schema.b := 2 |}).
  reflexivity.
Defined.

(** X3: the factory ignores the case of ASCII letters.  Two pure-ASCII kind
    strings that agree once each 'A'..'Z' is replaced by its lowercase
    letter give the same entity, or are both refused. *)
Theorem create_ignores_ascii_case `{Host} (S : Type) (st : S) (s s' : str)
    (u : uuid) (x y : Number) :
  is_ascii s = true -> is_ascii s' = true ->
  List.map ascii_lower s = List.map ascii_lower s' ->
  (forall e : Entity,
      create s u x y st = (Ok e, st) <-> create s' u x y st = (Ok e, st)) /\
  (create s u x y st = (Raise (unsupported s), st) <->
   create s' u x y st = (Raise (unsupported s'), st)).
Proof.
  intros Hs Hs' Hm. pose proof (lower_ascii_case s s' Hs Hs' Hm) as Hl.
  unfold create. rewrite Hl.
  destruct (calculation_classes !! lower s') as [c|]; simpl.
  - split; [reflexivity|]. unfold ret, raise. split; discriminate.
  - unfold raise. split; [|tauto]. intros e. split; discriminate.
Qed.

Lemma create_ignores_ascii_case_witness :
  @create Samples.plain_host unit (lit "DIVISION") Samples.owner
    (PyInt 10) (PyInt 0) tt = (Ok Samples.division_10_0, tt).
Proof.
  apply (proj1 (@create_ignores_ascii_case Samples.plain_host unit tt
                  (lit "dIvIsIoN") (lit "DIVISION") Samples.owner
                  (PyInt 10) (PyInt 0) eq_refl eq_refl eq_refl)).
  reflexivity.
Defined.

(** X4: the create shape ignores the case of ASCII letters in [type].
    Replacing the type of a payload by a pure-ASCII string with the same
    lowercase letters changes nothing in the outcome. *)
Theorem create_shape_ignores_ascii_case `{Host} (data : gmap str PyVal)
    (s s' : str) :
  is_ascii s = true -> is_ascii s' = true ->
  List.map ascii_lower s = List.map ascii_lower s' ->
  data !! lit "type" = Some (VStr s) ->
  validate_create (<[lit "type" := VStr s']> data) = validate_create data.
Proof.
  intros Hs Hs' Hm Hd. pose proof (lower_ascii_case s s' Hs Hs' Hm) as Hl.
  unfold validate_create, validate_base, base_fields.
  assert (Ht : type_field (Some 50%nat) (<[lit "type" := VStr s']> data)
               = type_field (Some 50%nat) data).
  { unfold type_field, required. rewrite lookup_insert_eq, Hd.
    unfold before, check_type_is_valid. rewrite Hl. reflexivity. }
  assert (Ha : a_field (<[lit "type" := VStr s']> data) = a_field data).
  { unfold a_field. apply required_lookup. apply lookup_insert_ne.
    vm_compute. discriminate. }
  assert (Hb : b_field (<[lit "type" := VStr s']> data) = b_field data).
  { unfold b_field. apply required_lookup. apply lookup_insert_ne.
    vm_compute. discriminate. }
  rewrite Ht, Ha, Hb. reflexivity.
Qed.

Lemma create_shape_ignores_ascii_case_witness :
  @validate_create Samples.plain_host
    (<[lit "type" := VStr (lit "DIVIDE")]> Samples.divide_4_0)
    = @validate_create Samples.plain_host Samples.divide_4_0.
Proof.
  apply (@create_shape_ignores_ascii_case Samples.plain_host
           Samples.divide_4_0 (lit "Divide") (lit "DIVIDE"));
    reflexivity.
Defined.

(** X5: every error the create shape can report.  At [type]: the key is
    missing, or one of the two messages of [check_type_is_valid]; at [a]
    and at [b]: the key is missing, the message of the operand's own
    validator, or an int too large for a float; for the model: "Cannot
    divide by zero".  In particular the [max_length=50] of [type] never
    fires. *)
Theorem create_shape_error_catalogue `{Host} (data : gmap str PyVal)
    (e : LineError) :
  In e (errors (validate_create data)) ->
  (loc e = Some (lit "type") /\
   (err e = missing \/
    err e = value_error (lit "Type must be a string") \/
    err e = value_error
              (lit "Type must be 'add', 'subtract', 'multiply' or 'divide'"))) \/
  (loc e = Some (lit "a") /\
   (err e = missing \/
    err e = value_error (lit "First value should be a number") \/
    err e = float_type)) \/
  (loc e = Some (lit "b") /\
   (err e = missing \/
    err e = value_error (lit "Second value should be a number") \/
    err e = float_type)) \/
  e = Samples.cross_field_error.
Proof.
  destruct (validate_create_fields data) as [[s Hs]| ->].
  - unfold validate_create, validate_base, after, check_div_by_zero.
    rewrite Hs. destruct (_ && _); simpl; [|tauto].
    intros [<-|[]]. right; right; right. reflexivity.
  - simpl. rewrite !in_app_iff.
    unfold type_field, a_field, b_field.
    intros [Hin|[Hin|Hin]];
      apply errors_required_in in Hin as (Hl & [[Hm _]|(v & _ & Hv)]).
    + left. auto.
    + left. split; [exact Hl|].
      destruct (type_check_cases (Some 50%nat) v (or_intror eq_refl))
        as [[_ Hr]|[(t & _ & _ & Hr)|(t & _ & _ & Hr)]];
        rewrite Hr in Hv; try discriminate; injection Hv as <-; auto.
    + right; left. auto.
    + right; left. split; [exact Hl|].
      apply operand_errors with (msg := lit "First value should be a number")
        in Hv; [tauto|reflexivity].
    + right; right; left. auto.
    + right; right; left. split; [exact Hl|].
      apply operand_errors with (msg := lit "Second value should be a number")
        in Hv; [tauto|reflexivity].
Qed.

Lemma create_shape_error_catalogue_witness :
  (loc (Samples.field_error "a" "First value should be a number")
     = Some (lit "type") /\
   (err (Samples.field_error "a" "First value should be a number") = missing \/
    err (Samples.field_error "a" "First value should be a number")
      = value_error (lit "Type must be a string") \/
    err (Samples.field_error "a" "First value should be a number")
      = value_error
          (lit "Type must be 'add', 'subtract', 'multiply' or 'divide'"))) \/
  (loc (Samples.field_error "a" "First value should be a number")
     = Some (lit "a") /\
   (err (Samples.field_error "a" "First value should be a number") = missing \/
    err (Samples.field_error "a" "First value should be a number")
      = value_error (lit "First value should be a number") \/
    err (Samples.field_error "a" "First value should be a number")
      = float_type)) \/
  (loc (Samples.field_error "a" "First value should be a number")
     = Some (lit "b") /\
   (err (Samples.field_error "a" "First value should be a number") = missing \/
    err (Samples.field_error "a" "First value should be a number")
      = value_error (lit "Second value should be a number") \/
    err (Samples.field_error "a" "First value should be a number")
      = float_type)) \/
  Samples.field_error "a" "First value should be a number"
    = Samples.cross_field_error.
Proof.
  apply (@create_shape_error_catalogue Samples.plain_host Samples.add_four_5).
  left. reflexivity.
Defined.

(** X6: the create shape reports at most one error per field, in the order
    [type], [a], [b] of the declarations; the cross-field error is only
    ever reported alone. *)
Theorem create_shape_errors_ordered `{Host} (data : gmap str PyVal) :
  errors (validate_create data) = [Samples.cross_field_error] \/
  sublist (List.map loc (errors (validate_create data)))
    [Some (lit "type"); Some (lit "a"); Some (lit "b")].
Proof.
  destruct (validate_create_fields data) as [[s Hs]| ->].
  - unfold validate_create, validate_base, after, check_div_by_zero.
    rewrite Hs. destruct (_ && _); simpl; [left; reflexivity|].
    right. apply sublist_nil_l.
  - right. simpl. unfold type_field, a_field, b_field.
    destruct (errors_required_singleton data (lit "type")
                (before check_type_is_valid (core_str (Some 50%nat))))
      as [-> |[kt ->]];
    destruct (errors_required_singleton data (lit "a")
                (before check_a_is_number core_float)) as [-> |[ka ->]];
    destruct (errors_required_singleton data (lit "b")
                (before check_b_is_number core_float)) as [-> |[kb ->]];
    simpl;
    repeat first [apply sublist_nil | apply sublist_skip | apply sublist_cons].
Qed.

(** X7: a key the payload does not hold.  When [type], [a] or [b] is
    absent the create shape rejects the payload, the error at that field is
    "missing", and no other error is reported at that field. *)
Theorem create_shape_missing_key `{Host} (data : gmap str PyVal) (name : str) :
  In name [lit "type"; lit "a"; lit "b"] ->
  data !! name = None ->
  In {| loc := Some name; err := missing |} (errors (validate_create data)) /\
  (forall e : LineError,
      In e (errors (validate_create data)) -> loc e = Some name ->
      err e = missing).
Proof.
  intros Hname Hnone.
  destruct (validate_create_fields data) as [[s Hs]|Hv].
  { exfalso. apply base_fields_inr in Hs as (Ht & Ha & Hb).
    unfold type_field, a_field, b_field in *.
    apply required_inr in Ht as (vt & Hvt & _).
    apply required_inr in Ha as (va & Hva & _).
    apply required_inr in Hb as (vb & Hvb & _).
    simpl in Hname. destruct Hname as [<-|[<-|[<-|[]]]]; congruence. }
  rewrite Hv. simpl. split.
  - rewrite !in_app_iff. unfold type_field, a_field, b_field, required.
    simpl in Hname. destruct Hname as [<-|[<-|[<-|[]]]]; rewrite Hnone; simpl;
      auto.
  - intros e. rewrite !in_app_iff. unfold type_field, a_field, b_field.
    intros [Hin|[Hin|Hin]] Hloc;
      apply errors_required_in in Hin as (Hl & [[Hm _]|(v & Hv' & _)]);
      try exact Hm; rewrite Hl in Hloc; injection Hloc as <-; congruence.
Qed.

Lemma create_shape_missing_key_witness :
  In {| loc := Some (lit "a"); err := missing |}
     (errors (@validate_create Samples.plain_host Samples.update_b_0)).
Proof.
  apply (@create_shape_missing_key Samples.plain_host Samples.update_b_0
           (lit "a")).
  - simpl. auto.
  - reflexivity.
Defined.

(** X8: the check at the boundary covers the check of the entity.  When the
    create shape accepts a payload whose type is "divide", [get_result] of
    a Division on the validated operands returns their quotient. *)
Theorem accepted_division_computes `{Host} (data : gmap str PyVal)
    (s : CalculationBase) (i : option uuid) (u : uuid) (t : str) :
  validate_create data = inr s ->
  Schema.type s = lit "divide" ->
  fst (get_result
         (Build_Entity Division i u t (PyFloat (Schema.a s))
            (PyFloat (Schema.b s))))
    = Ok (PyFloat (Schema.a s / Schema.b s)).
Proof.
  intros Hs Ht. apply validate_create_inr in Hs as [_ Hg].
  rewrite Ht in Hg. rewrite bool_decide_eq_true_2 in Hg by reflexivity.
  simpl in Hg. rewrite get_result_value. simpl. rewrite Hg.
  unfold py_truediv, float_binop. simpl. rewrite Hg. reflexivity.
Qed.

Lemma accepted_division_computes_witness :
  fst (get_result
         (Build_Entity Division None Samples.owner (lit "division")
            (PyFloat 4) (PyFloat 2)))
    = Ok (PyFloat (4 / 2)).
Proof.
  apply (@accepted_division_computes Samples.plain_host
           (Samples.payload (VStr (lit "DIVIDE")) (VInt 4) (VInt 2))
           {| Schema.type := lit "divide"; Schema.a := 4; Schema.b := 2 |});
    reflexivity.
Defined.

(** X9: Python's own [ZeroDivisionError] never leaves [get_result] when [b]
    is a float, or when both operands are ints: the guard of Division has
    caught every zero divisor before the division is made, and the other
    classes do not divide. *)
Theorem get_result_no_zero_division_error :
  (forall (c : Class) (i : option uuid) (u : uuid) (t : str) (x : Number)
          (g : float),
      fst (get_result (Build_Entity c i u t x (PyFloat g)))
        <> Raise ZeroDivisionError) /\
  (forall (c : Class) (i : option uuid) (u : uuid) (t : str) (m n : Z),
      fst (get_result (Build_Entity c i u t (PyInt m) (PyInt n)))
        <> Raise ZeroDivisionError).
Proof.
  split.
  - intros c i u t x g. rewrite get_result_value. simpl.
    destruct c; try discriminate.
    + destruct x; apply float_binop_no_zero_division; discriminate.
    + destruct x; apply float_binop_no_zero_division; discriminate.
    + destruct x; apply float_binop_no_zero_division; discriminate.
    + destruct (g =? 0)%float eqn:Hg; [discriminate|].
      assert (Hd : forall x0,
                 float_binop
                   (fun f g0 => if (g0 =? 0)%float
                                then Raise ZeroDivisionError
                                else Ok (PyFloat (f / g0))) x0 (PyFloat g)
                 <> Raise ZeroDivisionError).
      { intros x0. apply float_binop_no_zero_division.
        intros f g0 [= <-]. rewrite Hg. discriminate. }
      destruct x; apply Hd.
  - intros c i u t m n. rewrite get_result_value. simpl.
    destruct c; try discriminate.
    destruct (n =? 0)%Z; [discriminate|].
    destruct (SFdiv _ _ _ _); discriminate.
Qed.

(** X10: the response shape does not compare [result] with the operands.
    When a payload is accepted, the same payload with any other float as
    [result] is accepted too and differs in [result] only. *)
Theorem response_result_unchecked `{Host} (data : gmap str PyVal)
    (resp : CalculationResponse) (r : float) :
  validate_response data = inr resp ->
  validate_response (<[lit "result" := VFloat r]> data)
    = inr {| base := base resp; Schema.id := Schema.id resp; result := r |}.
Proof.
  intros Hv. unfold validate_response, after in *.
  assert (Hne : forall k, k <> lit "result" ->
                  <[lit "result" := VFloat r]> data !! k = data !! k).
  { intros k Hk. apply lookup_insert_ne. congruence. }
  assert (Hb : base_fields None (<[lit "result" := VFloat r]> data)
               = base_fields None data).
  { unfold base_fields, type_field, a_field, b_field.
    rewrite !(required_lookup (<[lit "result" := VFloat r]> data) data);
      [reflexivity| | |]; apply Hne; vm_compute; discriminate. }
  assert (Hi : required (<[lit "result" := VFloat r]> data) (lit "id") core_uuid
               = required data (lit "id") core_uuid).
  { apply required_lookup, Hne. vm_compute. discriminate. }
  assert (Hr : required (<[lit "result" := VFloat r]> data) (lit "result")
                 core_float = inr r).
  { unfold required. rewrite lookup_insert_eq. reflexivity. }
  unfold response_fields in *. rewrite Hb, Hi, Hr.
  destruct (base_fields None data) as [lb|s]; [discriminate|].
  destruct (required data (lit "id") core_uuid) as [li|j];
    [destruct (required data (lit "result") core_float); discriminate|].
  destruct (required data (lit "result") core_float) as [lr|r0];
    [discriminate|].
  unfold check_div_by_zero_response in *. simpl in *.
  destruct (check_div_by_zero s); [|discriminate].
  injection Hv as <-. reflexivity.
Qed.

Lemma response_result_unchecked_witness :
  @validate_response Samples.plain_host
    (<[lit "result" := VFloat 17]>
       (response_data (lit "add") Samples.stored_addition (PyFloat 18.5)))
    = inr {| base := {| Schema.type := lit "add"; Schema.a := 10;
                        Schema.b := 8.5 |};
             Schema.id := 1%N; result := 17 |}.
Proof.
  apply (@response_result_unchecked Samples.plain_host
           (response_data (lit "add") Samples.stored_addition (PyFloat 18.5))
           {| base := {| Schema.type := lit "add"; Schema.a := 10;
                         Schema.b := 8.5 |};
              Schema.id := 1%N; result := 18.5 |} 17).
  reflexivity.
Defined.

(** X11: the [type] column does not always lead back to the class.  For an
    entity the factory returned, the factory called again on the entity's
    own [type] succeeds, and it returns the class of the entity except for
    a Multiplication, whose stored "subtraction" gives a Subtraction. *)
Theorem type_column_round_trip `{Host} (S : Type) (st : S) (s : str)
    (u : uuid) (x y : Number) (e : Entity) :
  create s u x y st = (Ok e, st) ->
  exists e' : Entity,
    create (Models.type e) u x y st = (Ok e', st) /\
    (cls e' = cls e <-> cls e <> Multiplication) /\
    (cls e = Multiplication -> cls e' = Subtraction).
Proof.
  intros Hc.
  destruct (create_cases st s u x y)
    as [[_ Hr]|[[_ Hr]|[[_ Hr]|[[_ Hr]|[_ Hr]]]]];
    rewrite Hr in Hc; try discriminate; injection Hc as <-;
    (eexists; split; [reflexivity|]); simpl;
    (split; [split; [discriminate|]|]); try reflexivity; try discriminate;
    congruence.
Qed.

Lemma type_column_round_trip_witness :
  exists e' : Entity,
    @create Samples.plain_host unit
      (Models.type (new Multiplication Samples.owner None (PyInt 2) (PyInt 3)))
      Samples.owner (PyInt 2) (PyInt 3) tt = (Ok e', tt) /\
    (cls e' = Multiplication <-> Multiplication <> Multiplication) /\
    (Multiplication = Multiplication -> cls e' = Subtraction).
Proof.
  apply (@type_column_round_trip Samples.plain_host unit tt
           (lit "Multiplication") Samples.owner (PyInt 2) (PyInt 3)
           (new Multiplication Samples.owner None (PyInt 2) (PyInt 3))).
  reflexivity.
Defined.

(** X12: both errors of the entity layer are plain [ValueError]s, told
    apart by their message only: the message of the factory determines the
    refused string, and it is never the message of the division. *)
Theorem model_errors_distinct :
  (forall s s' : str, unsupported s = unsupported s' -> s = s') /\
  (forall s : str, unsupported s <> division_by_zero).
Proof.
  split.
  - intros s s'. unfold unsupported. intros [= Heq]. exact Heq.
  - intros s. unfold unsupported, division_by_zero. intros Heq.
    vm_compute in Heq. discriminate.
Qed.

Lemma model_errors_distinct_witness : lit "power" = lit "power".
Proof.
  apply (proj1 model_errors_distinct (lit "power") (lit "power")).
  reflexivity.
Defined.

(** X13: an operand given as a string.  The create shape refuses it with
    the operand's own message, whatever the string holds; the update shape,
    which has no validator of its own, takes it when it parses as a number
    and reports a parsing error otherwise. *)
Theorem string_operand_create_vs_update `{Host} (data : gmap str PyVal)
    (s : str) :
  data !! lit "a" = Some (VStr s) ->
  In (Samples.field_error "a" "First value should be a number")
     (errors (validate_create data)) /\
  (data !! lit "b" = None ->
   validate_update data =
     match str_as_float s with
     | Some f => inr {| Update.a := Some f; Update.b := None |}
     | None => inl [ {| loc := Some (lit "a"); err := float_parsing |} ]
     end).
Proof.
  intros Ha. split.
  - destruct (validate_create_fields data) as [[c Hc]| ->].
    + exfalso. apply base_fields_inr in Hc as (_ & Hc & _).
      unfold a_field, required in Hc. rewrite Ha in Hc. discriminate.
    + simpl. rewrite !in_app_iff. right; left.
      unfold a_field, required. rewrite Ha. simpl. auto.
  - intros Hb. unfold validate_update, optional. rewrite Ha, Hb. simpl.
    destruct (str_as_float s); reflexivity.
Qed.

Lemma string_operand_create_vs_update_witness :
  In (Samples.field_error "a" "First value should be a number")
     (errors (@validate_create Samples.plain_host Samples.add_four_5)).
Proof.
  apply (proj1 (@string_operand_create_vs_update Samples.plain_host
                  Samples.add_four_5 (lit "four") eq_refl)).
Defined.

(** X14: what "b is zero" means at the boundary.  For a payload whose type
    lowers to "divide" and whose [a] is valid, a [b] of 0, 0.0, -0.0 or
    False is rejected with "Cannot divide by zero" alone, and a float [b]
    that is not equal to 0 is accepted as it is, a NaN or an infinity
    included. *)
Theorem divide_rejects_every_zero `{Host} (data : gmap str PyVal)
    (raw : str) (x : float) (z : PyVal) :
  data !! lit "type" = Some (VStr raw) ->
  lower raw = lit "divide" ->
  a_field data = inr x ->
  data !! lit "b" = Some z ->
  (z = VInt 0 \/ z = VFloat 0 \/ z = VFloat (-0) \/ z = VBool false ->
   validate_create data = inl [Samples.cross_field_error]) /\
  (forall f : float,
      z = VFloat f -> (f =? 0)%float = false ->
      validate_create data
        = inr {| Schema.type := lit "divide"; Schema.a := x; Schema.b := f |}) /\
  (nan =? 0)%float = false /\ (infinity =? 0)%float = false.
Proof.
  intros Ht Hl Ha Hb.
  assert (Htf : type_field (Some 50%nat) data = inr (lit "divide")).
  { unfold type_field, required. rewrite Ht.
    destruct (type_check_cases (Some 50%nat) (VStr raw) (or_intror eq_refl))
      as [[Hs _]|[(t & [= <-] & Hn & _)|(t & [= <-] & _ & ->)]].
    - discriminate.
    - exfalso. apply Hn. rewrite Hl. simpl. tauto.
    - rewrite Hl. reflexivity. }
  assert (Hbase : forall f, b_field data = inr f ->
            validate_create data =
              if (f =? 0)%float then inl [Samples.cross_field_error]
              else inr {| Schema.type := lit "divide"; Schema.a := x;
                          Schema.b := f |}).
  { intros f Hf. unfold validate_create, validate_base, base_fields.
    rewrite Htf, Ha, Hf. unfold after, check_div_by_zero. simpl.
    destruct (f =? 0)%float; reflexivity. }
  split; [|split; [|split; reflexivity]].
  - intros Hz.
    assert (Hf : exists f, b_field data = inr f /\ (f =? 0)%float = true).
    { unfold b_field, required. rewrite Hb.
      destruct Hz as [-> |[-> |[-> | ->]]]; eexists; split; reflexivity. }
    destruct Hf as (f & Hf & Hz0). rewrite (Hbase f Hf), Hz0. reflexivity.
  - intros f -> Hf.
    assert (Hbf : b_field data = inr f).
    { unfold b_field, required. rewrite Hb. reflexivity. }
    rewrite (Hbase f Hbf), Hf. reflexivity.
Qed.

Lemma divide_rejects_every_zero_witness :
  @validate_create Samples.plain_host Samples.divide_4_0
    = inl [Samples.cross_field_error].
Proof.
  apply (proj1 (@divide_rejects_every_zero Samples.plain_host
                  Samples.divide_4_0 (lit "Divide") 4 (VInt 0)
                  eq_refl eq_refl eq_refl eq_refl)).
  left. reflexivity.
Defined.

(** X15: what holds of every response instance.  A response that was
    constructed has a type of the schema's vocabulary, and it is never a
    "divide" whose [b] is equal to 0, whatever [result] was given. *)
Theorem response_invariant `{Host} (data : gmap str PyVal)
    (resp : CalculationResponse) :
  validate_response data = inr resp ->
  In (Schema.type (base resp))
     [lit "add"; lit "subtract"; lit "multiply"; lit "divide"] /\
  ~ (Schema.type (base resp) = lit "divide" /\
     (Schema.b (base resp) =? 0)%float = true).
Proof.
  intros Hv. unfold validate_response, after in Hv.
  destruct (response_fields data) as [l|r0] eqn:Hf; [discriminate|].
  unfold check_div_by_zero_response, check_div_by_zero in Hv.
  destruct (bool_decide (Schema.type (base r0) = value DIVIDE)
            && (Schema.b (base r0) =? 0)%float) eqn:Hg; [discriminate|].
  injection Hv as <-. unfold response_fields in Hf.
  destruct (base_fields None data) as [lb|s] eqn:Hb.
  { destruct (required data (lit "id") core_uuid),
      (required data (lit "result") core_float); discriminate. }
  destruct (required data (lit "id") core_uuid) as [li|j]; [discriminate|].
  destruct (required data (lit "result") core_float) as [lr|r1];
    [discriminate|].
  injection Hf as <-. simpl in *.
  apply base_fields_inr in Hb as (Ht & _ & _).
  apply type_field_inr in Ht as (raw & _ & _ & Hin); [|auto].
  split; [exact Hin|].
  intros [Hd Hz]. rewrite Hd, Hz in Hg.
  rewrite bool_decide_eq_true_2 in Hg by reflexivity. discriminate.
Qed.

Lemma response_invariant_witness :
  In (lit "add") [lit "add"; lit "subtract"; lit "multiply"; lit "divide"] /\
  ~ (lit "add" = lit "divide" /\ (8.5 =? 0)%float = true).
Proof.
  apply (@response_invariant Samples.plain_host
           (response_data (lit "add") Samples.stored_addition (PyFloat 18.5))
           {| base := {| Schema.type := lit "add"; Schema.a := 10;
                         Schema.b := 8.5 |};
              Schema.id := 1%N; result := 18.5 |}).
  reflexivity.
Defined.

(** X16: a [null] operand in an update is not the same as an absent one.
    The fields of the update shape default to [None] but are declared
    [float]: a payload that holds [a] with the value [None] is rejected at
    [a], and once the key is removed the outcome is that of [b] alone, with
    [a] left unset. *)
Theorem update_null_operand `{Host} (data : gmap str PyVal) :
  data !! lit "a" = Some VNone ->
  (exists rest : list LineError,
      validate_update data
        = inl ({| loc := Some (lit "a"); err := float_type |} :: rest)) /\
  validate_update (delete (lit "a") data) =
    match optional data (lit "b") core_float with
    | inr y => inr {| Update.a := None; Update.b := y |}
    | inl l => inl l
    end.
Proof.
  intros Ha. split.
  - unfold validate_update. unfold optional at 1. rewrite Ha. simpl.
    destruct (optional data (lit "b") core_float); eexists; reflexivity.
  - unfold validate_update. unfold optional at 1.
    rewrite lookup_delete_eq.
    rewrite (optional_lookup (delete (lit "a") data) data (lit "b")).
    + destruct (optional data (lit "b") core_float); reflexivity.
    + apply lookup_delete_ne. vm_compute. discriminate.
Qed.

Lemma update_null_operand_witness :
  exists rest : list LineError,
    @validate_update Samples.plain_host
      (<[lit "a" := VNone]> Samples.update_b_0)
      = inl ({| loc := Some (lit "a"); err := float_type |} :: rest).
Proof.
  destruct (@update_null_operand Samples.plain_host
              (<[lit "a" := VNone]> Samples.update_b_0)) as [Hw _].
  - vm_compute. reflexivity.
  - exact Hw.
Defined.
